(** * YouTube search service: formatter, filters and search orchestration

    A shallow embedding of [src/core/data_processor.py],
    [src/core/youtube_api.py] and [src/core/search_service.py].

    Python dictionaries built by the formatter are finite maps from key
    names to values; the JSON documents returned by the remote API are
    records whose optional keys are [option] fields; the remote service is
    a state-passing oracle and every remote invocation is appended to a
    trace, so that statements about which calls are issued can be made. *)

From Stdlib Require Import Ascii String.
From stdpp Require Import gmap strings list fin_maps pretty.

Local Open Scope string_scope.
Local Open Scope list_scope.
Local Open Scope stdpp_scope.

(** ** Python string primitives used by the formatter *)

Module Py.

(** [s.startswith(p)] *)
Fixpoint startswith (p s : string) : bool :=
  match p, s with
  | EmptyString, _ => true
  | String a p', String b s' => if Ascii.eqb a b then startswith p' s' else false
  | String _ _, EmptyString => false
  end.

(** [needle in s] for strings: some suffix of [s] starts with [needle]. *)
Fixpoint contains (needle s : string) : bool :=
  startswith needle s ||
  match s with
  | EmptyString => false
  | String _ s' => contains needle s'
  end.

(** [s.replace(old, new)] for a non-empty [old]: occurrences are replaced
    from the left, without overlap.  [skip] counts the characters of an
    occurrence that are still to be dropped. *)
Fixpoint replace_from (old new : string) (skip : nat) (s : string) : string :=
  match s with
  | EmptyString => EmptyString
  | String c s' =>
      match skip with
      | S k => replace_from old new k s'
      | O =>
          if startswith old s
          then new +:+ replace_from old new (String.length old - 1) s'
          else String c (replace_from old new 0 s')
      end
  end.

Definition replace (old new s : string) : string := replace_from old new 0 s.

(** [\d] on code points below 256: the ASCII digits. *)
Definition is_digit (c : ascii) : bool :=
  let n := Ascii.nat_of_ascii c in (48 <=? n)%nat && (n <=? 57)%nat.

(** The pattern [(\d+)X] anchored at the start of [s]: [\d+] is greedy, so
    one more digit is tried first, and only when the rest of the pattern
    fails there does the engine back off and look for [X] right after the
    digits taken so far.  The result is group 1. *)
Fixpoint match_digits_then (X : ascii) (s : string) : option string :=
  match s with
  | EmptyString => None
  | String d rest =>
      if is_digit d then
        match match_digits_then X rest with
        | Some g => Some (String d g)
        | None =>
            match rest with
            | String x _ => if Ascii.eqb x X then Some (String d EmptyString) else None
            | EmptyString => None
            end
        end
      else None
  end.

(** [re.search(r'(\d+)X', s)]: the leftmost position where the pattern
    matches; [None] when there is none. *)
Fixpoint re_search_digits_then (X : ascii) (s : string) : option string :=
  match match_digits_then X s with
  | Some g => Some g
  | None =>
      match s with
      | EmptyString => None
      | String _ s' => re_search_digits_then X s'
      end
  end.

(** [int(g)] on a string of ASCII digits (what group 1 of the patterns
    above always is). *)
Definition int_of_digits (g : string) : N :=
  fold_left (λ acc c, (10 * acc + (N.of_nat (Ascii.nat_of_ascii c) - 48))%N)
            (list_ascii_of_string g) 0%N.

(** [f"{n:02d}"]: the decimal numeral, left-padded with zeros to width 2. *)
Definition format_02d (n : N) : string :=
  let s := pretty n in
  if (String.length s <? 2)%nat then "0" +:+ s else s.

(** [sep.join(l)] *)
Fixpoint join (sep : string) (l : list string) : string :=
  match l with
  | [] => ""
  | [x] => x
  | x :: rest => x +:+ sep +:+ join sep rest
  end.

(** Truth value of a string: [bool(s)]. *)
Definition str_truthy (s : string) : bool := negb (String.eqb s "").

(** Truth value of [d.get(k)] for a string-valued key: [None] and [''] are
    both false. *)
Definition opt_truthy (o : option string) : bool :=
  match o with
  | Some s => str_truthy s
  | None => false
  end.

(** [k in d] for an optional key of a JSON document. *)
Definition present {A} (o : option A) : bool :=
  match o with
  | Some _ => true
  | None => false
  end.

(** The values the formatter stores in its result dictionaries. *)
Inductive pyval : Type :=
  | PStr (s : string)
  | PInt (z : Z)
  | PBool (b : bool)
  | PList (l : list string).

#[global] Instance pyval_eq_dec : EqDecision pyval.
Proof. solve_decision. Defined.

#[global] Instance pyval_countable : Countable pyval.
Proof.
  refine (inj_countable'
    (λ v, match v with
          | PStr s => inl s
          | PInt z => inr (inl z)
          | PBool b => inr (inr (inl b))
          | PList l => inr (inr (inr l))
          end)
    (λ x, match x with
          | inl s => PStr s
          | inr (inl z) => PInt z
          | inr (inr (inl b)) => PBool b
          | inr (inr (inr l)) => PList l
          end) _).
  by intros [].
Defined.

(** [bool(v)] *)
Definition truthy (v : pyval) : bool :=
  match v with
  | PStr s => str_truthy s
  | PInt z => negb (z =? 0)%Z
  | PBool b => b
  | PList l => match l with [] => false | _ => true end
  end.

(** [a or b], where [None] is Python's [None] (what [dict.get] gives for a
    missing key). *)
Definition or_ (a b : option pyval) : option pyval :=
  match a with
  | Some v => if truthy v then a else b
  | None => b
  end.

(** [a == b]; [True == 1] and [False == 0] hold in Python. *)
Definition eq_ (a b : pyval) : bool :=
  match a, b with
  | PStr x, PStr y => String.eqb x y
  | PInt x, PInt y => (x =? y)%Z
  | PBool x, PBool y => Bool.eqb x y
  | PInt x, PBool y | PBool y, PInt x => (x =? (if y then 1 else 0))%Z
  | PList x, PList y => bool_decide (x = y)
  | _, _ => false
  end.

(** Exceptions; all of them are subclasses of [Exception], so an
    [except Exception] clause catches each. *)
Inductive exn : Type :=
  | Exception (msg : string)
  | HttpError (msg : string)
  | AttributeError (msg : string)
  | TypeError (msg : string).

(** [str(e)] *)
Definition exn_str (e : exn) : string :=
  match e with
  | Exception m | HttpError m | AttributeError m | TypeError m => m
  end.

(** [x in v]: membership in a list, substring of a string, [TypeError] on a
    value that is not iterable. *)
Definition in_ (x : string) (v : pyval) : exn + bool :=
  match v with
  | PList l => inr (bool_decide (x ∈ l))
  | PStr s => inr (contains x s)
  | PInt _ => inl (TypeError "argument of type 'int' is not iterable")
  | PBool _ => inl (TypeError "argument of type 'bool' is not iterable")
  end.

(** [s.split(sep)] for a separator of one character: the pieces between
    the separators, of which there is always at least one. *)
Fixpoint split_char (sep : ascii) (s : string) : list string :=
  match s with
  | EmptyString => [EmptyString]
  | String c s' =>
      if Ascii.eqb c sep then EmptyString :: split_char sep s'
      else match split_char sep s' with
           | piece :: pieces => String c piece :: pieces
           | [] => [String c EmptyString]
           end
  end.

(** A dictionary display [{k1: v1, k2: v2, ...}]: the entries are stored
    from left to right, so a later entry replaces an earlier one that has
    the same key. *)
Definition dict_display {V} (entries : list (string * V)) : gmap string V :=
  fold_left (λ d entry, <[entry.1 := entry.2]> d) entries ∅.


End Py.

Export Py (pyval, PStr, PInt, PBool, PList, exn, Exception, HttpError, AttributeError, TypeError).

(** ** A state and exception monad

    Python code that mutates a dictionary or talks to the remote service,
    and may raise: the state survives an exception, as the mutations made
    before a [raise] do. *)

Definition M (S A : Type) : Type := S → (exn + A) * S.

Definition ret {S A} (a : A) : M S A := λ s, (inr a, s).

Definition bind {S A B} (m : M S A) (k : A → M S B) : M S B :=
  λ s, match m s with
       | (inr a, s') => k a s'
       | (inl e, s') => (inl e, s')
       end.

Definition raise {S A} (e : exn) : M S A := λ s, (inl e, s).

(** [try: body  except Exception as e: handler e] *)
Definition try_except {S A} (body : M S A) (handler : exn → M S A) : M S A :=
  λ s, match body s with
       | (inl e, s') => handler e s'
       | (inr a, s') => (inr a, s')
       end.

Definition modify {S} (f : S → S) : M S unit := λ s, (inr tt, f s).

Definition get {S} : M S S := λ s, (inr s, s).

Notation "x <- c ;; k" := (bind c (λ x, k))
  (at level 100, c at next level, right associativity).
Notation "c ;;; k" := (bind c (λ _, k))
  (at level 100, right associativity).

(** [for x in l: acc = body(x, acc)] *)
Fixpoint for_acc {S A B} (l : list A) (body : A → B → M S B) (acc : B) : M S B :=
  match l with
  | [] => ret acc
  | x :: rest => acc' <- body x acc ;; for_acc rest body acc'
  end.

(** ** JSON documents of the remote API

    A key that may be missing is an [option] field; a nested object that
    may be missing is an [option] of a record.  Keys the program never
    reads are not represented. *)

Record ItemId := {
  id_videoId : option string;
  id_channelId : option string;
  id_playlistId : option string }.

Record Snippet := {
  sn_title : option string;
  sn_description : option string;
  sn_channelTitle : option string;
  sn_channelId : option string;
  sn_publishedAt : option string;
  sn_thumbnails_medium_url : option string; (* thumbnails.medium.url *)
  sn_categoryId : option string }.

(** One item of a [search.list] response. *)
Record RawHit := {
  hit_id : option ItemId;
  hit_snippet : option Snippet }.

Definition no_id : ItemId :=
  {| id_videoId := None; id_channelId := None; id_playlistId := None |}.

Definition no_snippet : Snippet :=
  {| sn_title := None; sn_description := None; sn_channelTitle := None;
     sn_channelId := None; sn_publishedAt := None;
     sn_thumbnails_medium_url := None; sn_categoryId := None |}.

Record DetailSnippet := { ds_categoryId : option string }.
Record ContentDetails := { cd_duration : option string; cd_itemCount : option Z }.
Record Statistics := {
  st_viewCount : option Z;
  st_likeCount : option Z;
  st_commentCount : option Z;
  st_subscriberCount : option Z;
  st_videoCount : option Z }.
Record Status := {
  status_madeForKids : option bool;
  status_privacyStatus : option string }.
Record TopicDetails := {
  td_relevantTopicIds : option (list string);
  td_topicCategories : option (list string) }.
Record BrandingChannel := { bc_keywords : option string }.
Record BrandingSettings := { bs_channel : option BrandingChannel }.

(** One item of a [videos.list], [channels.list] or [playlists.list]
    response.  The numeric strings of [statistics] are represented by their
    values. *)
Record DetailRecord := {
  d_id : option string;
  d_snippet : option DetailSnippet;
  d_contentDetails : option ContentDetails;
  d_statistics : option Statistics;
  d_status : option Status;
  d_topicDetails : option TopicDetails;
  d_brandingSettings : option BrandingSettings }.

(** [bool(details)]: a dictionary is true when it has a key. *)
Definition detail_truthy (d : DetailRecord) : bool :=
  Py.present (d_id d) || Py.present (d_snippet d) ||
  Py.present (d_contentDetails d) || Py.present (d_statistics d) ||
  Py.present (d_status d) || Py.present (d_topicDetails d) ||
  Py.present (d_brandingSettings d).

Definition no_detail_snippet : DetailSnippet := {| ds_categoryId := None |}.
Definition no_content_details : ContentDetails :=
  {| cd_duration := None; cd_itemCount := None |}.
Definition no_statistics : Statistics :=
  {| st_viewCount := None; st_likeCount := None; st_commentCount := None;
     st_subscriberCount := None; st_videoCount := None |}.
Definition no_status : Status :=
  {| status_madeForKids := None; status_privacyStatus := None |}.
Definition no_topic_details : TopicDetails :=
  {| td_relevantTopicIds := None; td_topicCategories := None |}.
Definition no_branding : BrandingSettings := {| bs_channel := None |}.
Definition no_branding_channel : BrandingChannel := {| bc_keywords := None |}.

(** ** [data_processor.py] *)

(** A formatted result: the dictionary [info] the formatter returns. *)
Abbreviation Info := (gmap string pyval).

Definition set_key (k : string) (v : pyval) : M Info unit := modify (<[k := v]>).

(** [bool(info.get(k))] *)
Definition get_truthy (info : Info) (k : string) : bool :=
  match info !! k with
  | Some v => Py.truthy v
  | None => false
  end.

Module YouTubeDataFormatter.

(** [YouTubeDataFormatter._parse_duration] *)
Definition _parse_duration (duration_string : string) : string :=
  if String.eqb duration_string "" then "Unknown" else
  let duration_string := Py.replace "PT" "" duration_string in
  let hours :=
    if Py.contains "H" duration_string then
      match Py.re_search_digits_then "H" duration_string with
      | Some g => Py.int_of_digits g
      | None => 0%N
      end
    else 0%N in
  let minutes :=
    if Py.contains "M" duration_string then
      match Py.re_search_digits_then "M" duration_string with
      | Some g => Py.int_of_digits g
      | None => 0%N
      end
    else 0%N in
  let seconds :=
    if Py.contains "S" duration_string then
      match Py.re_search_digits_then "S" duration_string with
      | Some g => Py.int_of_digits g
      | None => 0%N
      end
    else 0%N in
  if (0 <? hours)%N
  then Py.format_02d hours +:+ ":" +:+ Py.format_02d minutes +:+ ":" +:+ Py.format_02d seconds
  else Py.format_02d minutes +:+ ":" +:+ Py.format_02d seconds.


(** [YouTubeDataFormatter._get_category_name],
    [YouTubeDataFormatter._format_topic_categories] and
    [YouTubeDataFormatter._format_relevant_topic_ids]: the class body of
    [YouTubeDataFormatter] ends with [format_published_date]; the three
    static methods of these names are attributes of [FilterManager].
    Evaluating the attribute reference on [YouTubeDataFormatter] therefore
    raises [AttributeError] before any argument is looked at. *)
Definition _get_category_name {S} (category_id : string) : M S string :=
  raise (AttributeError
    "type object 'YouTubeDataFormatter' has no attribute '_get_category_name'").

Definition _format_topic_categories {S} (topic_categories : list string)
  : M S (list string) :=
  raise (AttributeError
    "type object 'YouTubeDataFormatter' has no attribute '_format_topic_categories'").

Definition _format_relevant_topic_ids {S} (topic_ids : list string)
  : M S (list string) :=
  raise (AttributeError
    "type object 'YouTubeDataFormatter' has no attribute '_format_relevant_topic_ids'").

(** The body of [format_video_info], acting on the dictionary [info]. *)
Definition format_video_info_body (item : RawHit) (video_details : option DetailRecord)
  : M Info unit :=
  let snippet := default no_snippet (hit_snippet item) in
  let video_id := default "" (id_videoId (default no_id (hit_id item))) in
  modify (λ _, list_to_map [
    ("type", PStr "video");
    ("id", PStr video_id);
    ("title", PStr (default "No title" (sn_title snippet)));
    ("description", PStr (default "No description" (sn_description snippet)));
    ("channel_title", PStr (default "Unknown Channel" (sn_channelTitle snippet)));
    ("channel_id", PStr (default "" (sn_channelId snippet)));
    ("published_at", PStr (default "" (sn_publishedAt snippet)));
    ("thumbnail_url", PStr (default "" (sn_thumbnails_medium_url snippet)));
    ("url", PStr (if Py.str_truthy video_id
                  then "https://www.youtube.com/watch?v=" +:+ video_id else ""))]) ;;;
  let search_category_id := default "" (sn_categoryId snippet) in
  (if Py.str_truthy search_category_id then
     set_key "category_id" (PStr search_category_id) ;;;
     name <- _get_category_name search_category_id ;;
     set_key "category_name" (PStr name)
   else
     set_key "category_id" (PStr "") ;;;
     set_key "category_name" (PStr "")) ;;;
  set_key "topic_ids" (PList []) ;;;
  set_key "topic_categories" (PList []) ;;;
  set_key "topic_categories_formatted" (PList []) ;;;
  set_key "relevant_topic_names" (PList []) ;;;
  info <- get ;;
  (* [category_name] holds a string here *)
  set_key "inferred_topics"
    (match info !! "category_name" with
     | Some (PStr name) => if Py.str_truthy name then PList [name] else PList []
     | _ => PList []
     end) ;;;
  match video_details with
  | None => ret tt
  | Some details =>
    if negb (detail_truthy details) then ret tt else
    try_except
      (info <- get ;;
       if negb (get_truthy info "category_id") then
         let snippet_details := default no_detail_snippet (d_snippet details) in
         let detail_category_id := default "" (ds_categoryId snippet_details) in
         if Py.str_truthy detail_category_id then
           set_key "category_id" (PStr detail_category_id) ;;;
           name <- _get_category_name detail_category_id ;;
           set_key "category_name" (PStr name)
         else ret tt
       else ret tt)
      (λ e, ret tt) ;;;
    let content_details := default no_content_details (d_contentDetails details) in
    let duration := default "" (cd_duration content_details) in
    set_key "duration" (PStr duration) ;;;
    set_key "duration_readable" (PStr (_parse_duration duration)) ;;;
    let statistics := default no_statistics (d_statistics details) in
    set_key "view_count" (PInt (default 0%Z (st_viewCount statistics))) ;;;
    set_key "like_count" (PInt (default 0%Z (st_likeCount statistics))) ;;;
    set_key "comment_count" (PInt (default 0%Z (st_commentCount statistics))) ;;;
    let status := default no_status (d_status details) in
    set_key "made_for_kids" (PBool (default false (status_madeForKids status))) ;;;
    set_key "privacy_status" (PStr (default "unknown" (status_privacyStatus status))) ;;;
    try_except
      (let topic_details := default no_topic_details (d_topicDetails details) in
       let topic_ids := default [] (td_relevantTopicIds topic_details) in
       let topic_categories := default [] (td_topicCategories topic_details) in
       set_key "topic_ids" (PList topic_ids) ;;;
       set_key "topic_categories" (PList topic_categories) ;;;
       formatted <- _format_topic_categories topic_categories ;;
       set_key "topic_categories_formatted" (PList formatted) ;;;
       names <- _format_relevant_topic_ids topic_ids ;;
       set_key "relevant_topic_names" (PList names))
      (λ e,
       set_key "topic_ids" (PList []) ;;;
       set_key "topic_categories" (PList []) ;;;
       set_key "topic_categories_formatted" (PList []) ;;;
       set_key "relevant_topic_names" (PList []))
  end.

(** [YouTubeDataFormatter.format_video_info]: the dictionary, or the
    exception that escapes. *)
Definition format_video_info (item : RawHit) (video_details : option DetailRecord)
  : exn + Info :=
  match format_video_info_body item video_details ∅ with
  | (inr _, info) => inr info
  | (inl e, _) => inl e
  end.

(** [YouTubeDataFormatter.format_channel_info] *)
Definition format_channel_info (item : RawHit) (channel_details : option DetailRecord)
  : Info :=
  let snippet := default no_snippet (hit_snippet item) in
  let channel_id := default "" (id_channelId (default no_id (hit_id item))) in
  let info : Info := list_to_map [
    ("type", PStr "channel");
    ("id", PStr channel_id);
    ("title", PStr (default "No title" (sn_title snippet)));
    ("description", PStr (default "No description" (sn_description snippet)));
    ("published_at", PStr (default "" (sn_publishedAt snippet)));
    ("thumbnail_url", PStr (default "" (sn_thumbnails_medium_url snippet)));
    ("url", PStr (if Py.str_truthy channel_id
                  then "https://www.youtube.com/channel/" +:+ channel_id else ""))] in
  match channel_details with
  | None => info
  | Some details =>
    if negb (detail_truthy details) then info else
    let statistics := default no_statistics (d_statistics details) in
    let info := <["subscriber_count" := PInt (default 0%Z (st_subscriberCount statistics))]> info in
    let info := <["video_count" := PInt (default 0%Z (st_videoCount statistics))]> info in
    let info := <["view_count" := PInt (default 0%Z (st_viewCount statistics))]> info in
    let branding := default no_branding (d_brandingSettings details) in
    <["keywords" := PStr (default "" (bc_keywords
        (default no_branding_channel (bs_channel branding))))]> info
  end.

(** [YouTubeDataFormatter.format_playlist_info] *)
Definition format_playlist_info (item : RawHit) (playlist_details : option DetailRecord)
  : Info :=
  let snippet := default no_snippet (hit_snippet item) in
  let playlist_id := default "" (id_playlistId (default no_id (hit_id item))) in
  let info : Info := list_to_map [
    ("type", PStr "playlist");
    ("id", PStr playlist_id);
    ("title", PStr (default "No title" (sn_title snippet)));
    ("description", PStr (default "No description" (sn_description snippet)));
    ("channel_title", PStr (default "Unknown Channel" (sn_channelTitle snippet)));
    ("channel_id", PStr (default "" (sn_channelId snippet)));
    ("published_at", PStr (default "" (sn_publishedAt snippet)));
    ("thumbnail_url", PStr (default "" (sn_thumbnails_medium_url snippet)));
    ("url", PStr (if Py.str_truthy playlist_id
                  then "https://www.youtube.com/playlist?list=" +:+ playlist_id else ""))] in
  match playlist_details with
  | None => info
  | Some details =>
    if negb (detail_truthy details) then info else
    let content_details := default no_content_details (d_contentDetails details) in
    let info := <["item_count" := PInt (default 0%Z (cd_itemCount content_details))]> info in
    let status := default no_status (d_status details) in
    <["privacy_status" := PStr (default "unknown" (status_privacyStatus status))]> info
  end.

End YouTubeDataFormatter.

Module FilterManager.

(** [FilterManager.filter_by_topic] *)
Fixpoint filter_by_topic_loop (results : list Info) (topic_id : string)
  : exn + list Info :=
  match results with
  | [] => inr []
  | result :: rest =>
      let topic_ids := default (PList []) (result !! "topic_ids") in
      match Py.in_ topic_id topic_ids with
      | inl e => inl e
      | inr keep =>
          match filter_by_topic_loop rest topic_id with
          | inl e => inl e
          | inr filtered_results =>
              inr (if keep then result :: filtered_results else filtered_results)
          end
      end
  end.

Definition filter_by_topic (results : list Info) (topic_id : option string)
  : exn + list Info :=
  if negb (Py.opt_truthy topic_id) then inr results
  else filter_by_topic_loop results (default "" topic_id).

(** [FilterManager.CATEGORIES] *)
Definition CATEGORIES : gmap string string := Py.dict_display
  [
   ("1", "Film & Animation");
   ("2", "Autos & Vehicles");
   ("10", "Music");
   ("15", "Pets & Animals");
   ("17", "Sports");
   ("18", "Short Movies");
   ("19", "Travel & Events");
   ("20", "Gaming");
   ("21", "Videoblogging");
   ("22", "People & Blogs");
   ("23", "Comedy");
   ("24", "Entertainment");
   ("25", "News & Politics");
   ("26", "Howto & Style");
   ("27", "Education");
   ("28", "Science & Technology");
   ("29", "Nonprofits & Activism");
   ("30", "Movies");
   ("31", "Anime/Animation");
   ("32", "Action/Adventure");
   ("33", "Classics");
   ("34", "Documentary");
   ("35", "Drama");
   ("36", "Family");
   ("37", "Foreign");
   ("38", "Horror");
   ("39", "Sci-Fi/Fantasy");
   ("40", "Thriller");
   ("41", "Shorts");
   ("42", "Shows");
   ("43", "Trailers") ].

(** [FilterManager.TOPICS] *)
Definition TOPICS : gmap string string := Py.dict_display
  [
   ("/m/04rlf", "Music");
   ("/m/02mscn", "Christian music");
   ("/m/0ggq0m", "Classical music");
   ("/m/01lyv", "Country music");
   ("/m/02lkt", "Electronic music");
   ("/m/0glt670", "Hip hop music");
   ("/m/05rwpb", "Independent music");
   ("/m/03_d0", "Jazz");
   ("/m/028sqc", "Music of Asia");
   ("/m/0g293", "Music of Latin America");
   ("/m/064t9", "Pop music");
   ("/m/06cqb", "Reggae");
   ("/m/06j6l", "Rhythm and blues");
   ("/m/06by7", "Rock music");
   ("/m/0gywn", "Soul music");
   ("/m/0bzvm2", "Gaming");
   ("/m/025zzc", "Action game");
   ("/m/02ntfj", "Adventure game");
   ("/m/0b1vjn", "Casual game");
   ("/m/02hygl", "Music video game");
   ("/m/04q1x3q", "Puzzle video game");
   ("/m/01sjng", "Racing video game");
   ("/m/0403l3g", "Role-playing video game");
   ("/m/021bp2", "Simulation video game");
   ("/m/022dc6", "Sports game");
   ("/m/03hf_rm", "Strategy video game");
   ("/m/06ntj", "Sports");
   ("/m/0jm_", "American football");
   ("/m/018jz", "Baseball");
   ("/m/018w8", "Basketball");
   ("/m/01cgz", "Boxing");
   ("/m/09xp_", "Cricket");
   ("/m/02vx4", "Football");
   ("/m/037hz", "Golf");
   ("/m/03tmr", "Ice hockey");
   ("/m/01h7lh", "Mixed martial arts");
   ("/m/0410tth", "Motorsport");
   ("/m/07bs0", "Tennis");
   ("/m/07_53", "Volleyball");
   ("/m/02jjt", "Entertainment");
   ("/m/09kqc", "Humor");
   ("/m/02vxn", "Movies");
   ("/m/05qjc", "Performing arts");
   ("/m/066wd", "Professional wrestling");
   ("/m/0f2f9", "TV shows");
   ("/m/019_rr", "Lifestyle");
   ("/m/032tl", "Fashion");
   ("/m/027x7n", "Fitness");
   ("/m/02wbm", "Food");
   ("/m/03glg", "Hobby");
   ("/m/068hy", "Pets");
   ("/m/041xxh", "Physical attractiveness");
   ("/m/07c1v", "Technology");
   ("/m/07bxq", "Tourism");
   ("/m/07yv9", "Vehicles");
   ("/m/01k8wb", "Knowledge") ].

(** [FilterManager.get_all_categories] *)
Definition get_all_categories : gmap string string := CATEGORIES.

(** [FilterManager.get_all_topics] *)
Definition get_all_topics : gmap string string := TOPICS.

(** [FilterManager.get_category_name] *)
Definition get_category_name (category_id : string) : string :=
  default "Unknown Category" (CATEGORIES !! category_id).

(** [FilterManager.get_topic_name] *)
Definition get_topic_name (topic_id : string) : string :=
  default "Unknown Topic" (TOPICS !! topic_id).

(** [FilterManager.filter_by_kids_content]; [made_for_kids] is [None],
    [True] or [False], and a result without the key compares unequal to
    both booleans. *)
Fixpoint filter_by_kids_content_loop (results : list Info) (made_for_kids : bool)
  : list Info :=
  match results with
  | [] => []
  | result :: rest =>
      let keep :=
        match result !! "made_for_kids" with
        | Some v => Py.eq_ v (PBool made_for_kids)
        | None => false
        end in
      if keep then result :: filter_by_kids_content_loop rest made_for_kids
      else filter_by_kids_content_loop rest made_for_kids
  end.

Definition filter_by_kids_content (results : list Info) (made_for_kids : option bool)
  : list Info :=
  match made_for_kids with
  | None => results
  | Some b => filter_by_kids_content_loop results b
  end.

(** The local table [categories] of [FilterManager._get_category_name]. *)
Definition categories : gmap string string := Py.dict_display
  [
   ("1", "Film & Animation");
   ("2", "Autos & Vehicles");
   ("10", "Music");
   ("15", "Pets & Animals");
   ("17", "Sports");
   ("18", "Short Movies");
   ("19", "Travel & Events");
   ("20", "Gaming");
   ("21", "Videoblogging");
   ("22", "People & Blogs");
   ("23", "Comedy");
   ("24", "Entertainment");
   ("25", "News & Politics");
   ("26", "Howto & Style");
   ("27", "Education");
   ("28", "Science & Technology");
   ("29", "Nonprofits & Activism");
   ("30", "Movies");
   ("31", "Anime/Animation");
   ("32", "Action/Adventure");
   ("33", "Classics");
   ("34", "Comedy");
   ("35", "Documentary");
   ("36", "Drama");
   ("37", "Family");
   ("38", "Foreign");
   ("39", "Horror");
   ("40", "Sci-Fi/Fantasy");
   ("41", "Thriller");
   ("42", "Shorts");
   ("43", "Shows");
   ("44", "Trailers") ].

(** [FilterManager._get_category_name], for an id that is a string. *)
Definition _get_category_name (category_id : string) : string :=
  default ("Category " +:+ category_id) (categories !! category_id).

(** [FilterManager._format_topic_categories] *)
Definition _format_topic_categories (topic_categories : list string) : list string :=
  match topic_categories with
  | [] => []
  | _ :: _ =>
      map (λ topic_url,
             if Py.contains "wikipedia.org/wiki/" topic_url
             then Py.replace "_" " " (default "" (last (Py.split_char "/" topic_url)))
             else topic_url)
          topic_categories
  end.

(** The local table [topic_mapping] of
    [FilterManager._format_relevant_topic_ids]; some keys are written more
    than once. *)
Definition topic_mapping : gmap string string := Py.dict_display
  [
   ("/m/04rlf", "Music");
   ("/m/0ggq0m", "Pop music");
   ("/m/064t9", "Rock music");
   ("/m/0glt670", "Hip hop music");
   ("/m/05rwpb", "Jazz");
   ("/m/05pd6", "Blues");
   ("/m/0342h", "Country music");
   ("/m/02lkt", "Classical music");
   ("/m/015lz1", "Song");
   ("/m/0l14md", "Dance music");
   ("/m/01lyv", "Electronic music");
   ("/m/07gxw", "Rhythm and blues");
   ("/m/06cqb", "Reggae");
   ("/m/03_d0", "Folk music");
   ("/m/02w4v", "Alternative rock");
   ("/m/01k8wb", "Knowledge");
   ("/m/019_rr", "Lifestyle");
   ("/m/032tl", "Entertainment");
   ("/m/098wr", "Sports");
   ("/m/01h6rj", "Health");
   ("/m/07c1v", "Technology");
   ("/m/07bxq", "Tourism");
   ("/m/06ntj", "Sports");
   ("/m/02jjt", "Entertainment");
   ("/m/05qt0", "Performing arts");
   ("/m/07yv9", "Vehicle");
   ("/m/02p0sh1", "Food");
   ("/m/01h44", "Cuisine");
   ("/m/02wbm", "Food");
   ("/m/0kt51", "Health");
   ("/m/01cgz", "Fitness");
   ("/m/01h7lh", "Physical fitness");
   ("/m/027x7n", "Cooking");
   ("/m/02p1r", "Beauty");
   ("/m/07c1v", "Technology");
   ("/m/019_rr", "Lifestyle");
   ("/m/098wr", "Sport");
   ("/m/06ntj", "Sports");
   ("/m/0jm_", "History");
   ("/m/05qjt", "Politics");
   ("/m/09s1f", "Business");
   ("/m/04fn_", "Television");
   ("/m/02vxn", "Movies");
   ("/m/06_fw", "Film");
   ("/m/02ntfj", "Documentary film");
   ("/m/0f2f9", "Comedy");
   ("/m/0bzvm2", "Gaming");
   ("/m/01sjng", "Video game");
   ("/m/0403l3g", "Video game culture");
   ("/m/025zzc", "Animal");
   ("/m/068hy", "Pet");
   ("/m/0ch_cf", "Dog");
   ("/m/01yrx", "Cat");
   ("/m/07bgp", "Travel");
   ("/m/07bxq", "Tourism");
   ("/m/01h6rj", "Health");
   ("/m/0kt51", "Health");
   ("/m/01cgz", "Fitness") ].

(** [FilterManager._format_relevant_topic_ids] *)
Definition _format_relevant_topic_ids (topic_ids : list string) : list string :=
  match topic_ids with
  | [] => []
  | _ :: _ =>
      map (λ topic_id, default ("Topic: " +:+ topic_id) (topic_mapping !! topic_id))
          topic_ids
  end.


End FilterManager.

(** ** [youtube_api.py] *)

(** The content kinds of a request: ['video'], ['channel'], ['playlist']. *)
Inductive ContentType : Type := video | channel | playlist.

#[global] Instance ContentType_eq_dec : EqDecision ContentType.
Proof. solve_decision. Defined.

(** The value under ['category_id']: one category, or a list of them. *)
Inductive CategoryValue : Type :=
  | CatStr (s : string)
  | CatList (l : list string).

(** The [search_params] dictionary; [None] is a missing key. *)
Record SearchParams := {
  sp_query : option string;
  sp_content_types : option (list ContentType);
  sp_content_type : option ContentType;
  sp_max_results : option Z;
  sp_order : option string;
  sp_safe_search : option string;
  sp_video_duration : option string;
  sp_video_definition : option string;
  sp_category_id : option CategoryValue;
  sp_published_after : option string;
  sp_published_before : option string;
  sp_region_code : option string;
  sp_language : option string;
  sp_topic_id : option string;
  sp_kids_filter : option string }.

(** [d = search_params.copy(); d['content_type'] = ct] *)
Definition with_content_type (p : SearchParams) (ct : ContentType) : SearchParams :=
  {| sp_query := sp_query p; sp_content_types := sp_content_types p;
     sp_content_type := Some ct; sp_max_results := sp_max_results p;
     sp_order := sp_order p; sp_safe_search := sp_safe_search p;
     sp_video_duration := sp_video_duration p;
     sp_video_definition := sp_video_definition p;
     sp_category_id := sp_category_id p;
     sp_published_after := sp_published_after p;
     sp_published_before := sp_published_before p;
     sp_region_code := sp_region_code p; sp_language := sp_language p;
     sp_topic_id := sp_topic_id p; sp_kids_filter := sp_kids_filter p |}.

(** [d['category_id'] = c] *)
Definition with_category_id (p : SearchParams) (c : CategoryValue) : SearchParams :=
  {| sp_query := sp_query p; sp_content_types := sp_content_types p;
     sp_content_type := sp_content_type p; sp_max_results := sp_max_results p;
     sp_order := sp_order p; sp_safe_search := sp_safe_search p;
     sp_video_duration := sp_video_duration p;
     sp_video_definition := sp_video_definition p;
     sp_category_id := Some c;
     sp_published_after := sp_published_after p;
     sp_published_before := sp_published_before p;
     sp_region_code := sp_region_code p; sp_language := sp_language p;
     sp_topic_id := sp_topic_id p; sp_kids_filter := sp_kids_filter p |}.

(** The keyword arguments of [youtube.search().list(...)]. *)
Record SearchArgs := {
  a_part : string;
  a_q : string;
  a_type : ContentType;
  a_maxResults : Z;
  a_order : string;
  a_safeSearch : string;
  a_videoDuration : option string;
  a_videoDefinition : option string;
  a_videoCategoryId : option CategoryValue;
  a_publishedAfter : option string;
  a_publishedBefore : option string;
  a_regionCode : option string;
  a_relevanceLanguage : option string }.

(** A request sent to the remote service by [execute()]. *)
Inductive RemoteCall : Type :=
  | SearchList (args : SearchArgs)
  | VideosList (part id : string)
  | ChannelsList (part id : string)
  | PlaylistsList (part id : string).

(** The service object built by [googleapiclient.discovery.build]: what each
    request answers from a state [W] of the outside world, either the
    ['items'] of the response (the empty list when the key is missing) or
    the exception [execute()] raises. *)
Record Service (W : Type) := {
  search_list : SearchArgs → W → (exn + list RawHit) * W;
  videos_list : string → string → W → (exn + list DetailRecord) * W;
  channels_list : string → string → W → (exn + list DetailRecord) * W;
  playlists_list : string → string → W → (exn + list DetailRecord) * W }.

Arguments search_list {W}.
Arguments videos_list {W}.
Arguments channels_list {W}.
Arguments playlists_list {W}.

(** The state the service code runs in: the outside world and the requests
    sent so far, oldest first. *)
Record St (W : Type) := { world : W; calls : list RemoteCall }.

Arguments world {W}.
Arguments calls {W}.

Module YouTubeAPIClient.

Record t (W : Type) := {
  api_key : option string;
  youtube : option (Service W) }.

Arguments api_key {W}.
Arguments youtube {W}.

Section Client.
Context {W : Type}.

(** [request.execute()] *)
Definition execute {A} (call : RemoteCall) (run : W → (exn + A) * W) : M (St W) A :=
  λ st, let '(r, w) := run (world st) in
        (r, {| world := w; calls := calls st ++ [call] |}).

(** [YouTubeAPIClient.is_ready] *)
Definition is_ready (self : t W) : bool := Py.present (youtube self).

(** [self.youtube.<resource>()]: an attribute of [None] cannot be read. *)
Definition the_service (self : t W) : M (St W) (Service W) :=
  match youtube self with
  | Some yt => ret yt
  | None => raise (AttributeError "'NoneType' object has no attribute")
  end.

(** The keyword arguments [search_content] builds from [search_params]. *)
Definition search_args (search_params : SearchParams) : SearchArgs :=
  {| a_part := "snippet";
     a_q := default "" (sp_query search_params);
     a_type := default video (sp_content_type search_params);
     a_maxResults := default 10%Z (sp_max_results search_params);
     a_order := default "relevance" (sp_order search_params);
     a_safeSearch := default "moderate" (sp_safe_search search_params);
     a_videoDuration := sp_video_duration search_params;
     a_videoDefinition := sp_video_definition search_params;
     a_videoCategoryId := sp_category_id search_params;
     a_publishedAfter := sp_published_after search_params;
     a_publishedBefore := sp_published_before search_params;
     a_regionCode := sp_region_code search_params;
     a_relevanceLanguage := sp_language search_params |}.

(** [YouTubeAPIClient.search_content]; [_clean_uri] returns the request URI
    unchanged. *)
Definition search_content (self : t W) (search_params : SearchParams)
  : M (St W) (list RawHit) :=
  if negb (is_ready self) then raise (Exception "YouTube API client not initialized") else
  try_except
    (yt <- the_service self ;;
     let args := search_args search_params in
     execute (SearchList args) (search_list yt args))
    (λ e, match e with
          | HttpError _ => raise (Exception ("YouTube API error: " +:+ Py.exn_str e))
          | _ => raise (Exception ("Search error: " +:+ Py.exn_str e))
          end).

(** [YouTubeAPIClient.get_video_details] *)
Definition get_video_details (self : t W) (video_ids : list string)
  : M (St W) (list DetailRecord) :=
  if negb (is_ready self) then raise (Exception "YouTube API client not initialized") else
  try_except
    (yt <- the_service self ;;
     let part := "snippet,contentDetails,statistics,status,topicDetails" in
     let id := Py.join "," video_ids in
     execute (VideosList part id) (videos_list yt part id))
    (λ e, match e with
          | HttpError _ => raise (Exception ("YouTube API error: " +:+ Py.exn_str e))
          | _ => raise (Exception ("Video details error: " +:+ Py.exn_str e))
          end).

(** [YouTubeAPIClient.get_channel_details] *)
Definition get_channel_details (self : t W) (channel_ids : list string)
  : M (St W) (list DetailRecord) :=
  if negb (is_ready self) then raise (Exception "YouTube API client not initialized") else
  try_except
    (yt <- the_service self ;;
     let part := "snippet,statistics,brandingSettings" in
     let id := Py.join "," channel_ids in
     execute (ChannelsList part id) (channels_list yt part id))
    (λ e, match e with
          | HttpError _ => raise (Exception ("YouTube API error: " +:+ Py.exn_str e))
          | _ => raise (Exception ("Channel details error: " +:+ Py.exn_str e))
          end).

(** [YouTubeAPIClient.get_playlist_details] *)
Definition get_playlist_details (self : t W) (playlist_ids : list string)
  : M (St W) (list DetailRecord) :=
  if negb (is_ready self) then raise (Exception "YouTube API client not initialized") else
  try_except
    (yt <- the_service self ;;
     let part := "snippet,contentDetails,status" in
     let id := Py.join "," playlist_ids in
     execute (PlaylistsList part id) (playlists_list yt part id))
    (λ e, match e with
          | HttpError _ => raise (Exception ("YouTube API error: " +:+ Py.exn_str e))
          | _ => raise (Exception ("Playlist details error: " +:+ Py.exn_str e))
          end).

(** What the client finds outside itself when it is set up: the
    environment variable [YOUTUBE_API_KEY], the name [YOUTUBE_API_KEY] of a
    local module [config] ([None] when the import fails), and
    [googleapiclient.discovery.build], which gives a service object or
    raises. *)
Record Env := {
  getenv_YOUTUBE_API_KEY : option string;
  config_YOUTUBE_API_KEY : option string;
  build : string → exn + Service W }.

(** [YouTubeAPIClient._get_api_key] *)
Definition _get_api_key (env : Env) : option string :=
  let api_key := getenv_YOUTUBE_API_KEY env in
  if Py.opt_truthy api_key then api_key else
  match config_YOUTUBE_API_KEY env with
  | Some key =>
      if Py.str_truthy key && negb (String.eqb key "YOUR_API_KEY_HERE")
      then Some key else None
  | None => None
  end.

(** [YouTubeAPIClient._initialize_service]: the value returned and the
    client afterwards. *)
Definition _initialize_service (env : Env) (self : t W) : bool * t W :=
  let self :=
    if negb (Py.opt_truthy (api_key self))
    then {| api_key := _get_api_key env; youtube := youtube self |}
    else self in
  if Py.opt_truthy (api_key self) then
    match build env (default "" (api_key self)) with
    | inr service => (true, {| api_key := api_key self; youtube := Some service |})
    | inl e => (false, self)
    end
  else (false, self).

(** [YouTubeAPIClient.__init__] *)
Definition __init__ (env : Env) (api_key : option string) : t W :=
  (_initialize_service env {| api_key := api_key; youtube := None |}).2.

(** [YouTubeAPIClient.set_api_key] *)
Definition set_api_key (env : Env) (self : t W) (api_key : option string)
  : bool * t W :=
  _initialize_service env {| api_key := api_key; youtube := youtube self |}.

(** [YouTubeAPIClient._clean_uri] *)
Definition _clean_uri (uri : string) : string := uri.


End Client.
End YouTubeAPIClient.

(** ** [search_service.py] *)

(** The dictionary [search] returns. *)
Record ResultSet := {
  videos : list Info;
  channels : list Info;
  playlists : list Info }.

Module YouTubeSearchService.

Record t (W : Type) := { api_client : YouTubeAPIClient.t W }.
Arguments api_client {W}.

(** An exception of a pure computation, raised in the monad. *)
Definition lift {S A} (r : exn + A) : M S A :=
  match r with
  | inr a => ret a
  | inl e => raise e
  end.

(** [kids_filter == s] for the value of [search_params.get('kids_filter')]. *)
Definition opt_eqb (o : option string) (s : string) : bool :=
  match o with
  | Some x => String.eqb x s
  | None => false
  end.

(** The block under [# Topic filter]: whether it executes [return False]. *)
Definition topic_filter_rejects (formatted_info : Info) (search_params : SearchParams)
  : exn + bool :=
  let topic_id := sp_topic_id search_params in
  if Py.opt_truthy topic_id then
    let video_topic_ids := default (PList []) (formatted_info !! "topic_ids") in
    if Py.truthy video_topic_ids then
      match Py.in_ (default "" topic_id) video_topic_ids with
      | inr member => inr (negb member)
      | inl e => inl e
      end
    else inr false
  else inr false.

(** The block under [# Kids content filter]: whether it executes
    [return False]. *)
Definition kids_filter_rejects (formatted_info : Info) (search_params : SearchParams)
  : bool :=
  let kids_filter := sp_kids_filter search_params in
  if negb (opt_eqb kids_filter "any") && Py.present (formatted_info !! "made_for_kids") then
    let target_kids_status := opt_eqb kids_filter "yes" in
    match formatted_info !! "made_for_kids" with
    | Some made_for_kids => negb (Py.eq_ made_for_kids (PBool target_kids_status))
    | None => false (* not reached: the key is present *)
    end
  else false.

(** [YouTubeSearchService._should_include_video] *)
Definition _should_include_video (formatted_info : Info) (search_params : SearchParams)
  : exn + bool :=
  match topic_filter_rejects formatted_info search_params with
  | inl e => inl e
  | inr true => inr false
  | inr false =>
      if kids_filter_rejects formatted_info search_params then inr false
      else inr true
  end.

(** [result.get('video_id') or result.get('channel_id') or result.get('playlist_id')] *)
Definition result_id (result : Info) : option pyval :=
  Py.or_ (Py.or_ (result !! "video_id") (result !! "channel_id"))
         (result !! "playlist_id").

(** The loop of [search] that removes duplicates and limits the results.
    The identifiers met here are strings or [None], for which membership
    in a Python set is structural equality. *)
Fixpoint dedup_loop (max_results : Z) (all_formatted_results : list Info)
    (seen_ids : gset (option pyval)) (unique_results : list Info) : list Info :=
  match all_formatted_results with
  | [] => unique_results
  | result :: rest =>
      let rid := result_id result in
      if bool_decide (rid ∉ seen_ids) then
        let seen_ids := seen_ids ∪ {[rid]} in
        let unique_results := unique_results ++ [result] in
        if (Z.of_nat (length unique_results) >=? max_results)%Z
        then unique_results
        else dedup_loop max_results rest seen_ids unique_results
      else dedup_loop max_results rest seen_ids unique_results
  end.

(** [results['videos'] = formatted_results] and its two siblings. *)
Definition store (results : ResultSet) (content_type : ContentType)
    (formatted_results : list Info) : ResultSet :=
  match content_type with
  | video => {| videos := formatted_results; channels := channels results;
                playlists := playlists results |}
  | channel => {| videos := videos results; channels := formatted_results;
                  playlists := playlists results |}
  | playlist => {| videos := videos results; channels := channels results;
                   playlists := formatted_results |}
  end.

Section Service.
Context {W : Type}.

(** [item.get('id', {}).get('videoId')] for the items with a true one. *)
Definition collect_video_ids (raw_results : list RawHit) : list string :=
  omap (λ item,
          let video_id := id_videoId (default no_id (hit_id item)) in
          if Py.opt_truthy video_id then video_id else None)
       raw_results.

(** The lookup dictionary built from the detail records. *)
Definition details_lookup (video_details_list : list DetailRecord)
  : gmap string DetailRecord :=
  fold_left (λ video_details_dict details,
               match d_id details with
               | Some video_id =>
                   if Py.str_truthy video_id
                   then <[video_id := details]> video_details_dict
                   else video_details_dict
               | None => video_details_dict
               end)
            video_details_list ∅.

(** The block under [# Get all video details in one request]: the lookup
    dictionary, empty when there is no id or when the request fails. *)
Definition fetch_video_details (self : t W) (video_ids : list string)
  : M (St W) (gmap string DetailRecord) :=
  match video_ids with
  | [] => ret ∅
  | _ :: _ =>
      try_except
        (video_details_list <-
           YouTubeAPIClient.get_video_details (api_client self) video_ids ;;
         ret (details_lookup video_details_list))
        (λ e, ret ∅)
  end.

(** One iteration of [for item in raw_results] for videos. *)
Definition process_video_item (video_details_dict : gmap string DetailRecord)
    (search_params : SearchParams) (item : RawHit) (formatted_results : list Info)
  : M (St W) (list Info) :=
  try_except
    (let video_id := id_videoId (default no_id (hit_id item)) in
     let video_details :=
       if Py.opt_truthy video_id
       then video_details_dict !! default "" video_id else None in
     formatted_info <-
       lift (YouTubeDataFormatter.format_video_info item video_details) ;;
     include <- lift (_should_include_video formatted_info search_params) ;;
     if include : bool
     then ret (formatted_results ++ [formatted_info])
     else ret formatted_results)
    (λ e, ret formatted_results).

(** One iteration of [for item in raw_results] for channels. *)
Definition process_channel_item (self : t W) (item : RawHit)
    (formatted_results : list Info) : M (St W) (list Info) :=
  try_except
    (let channel_id := id_channelId (default no_id (hit_id item)) in
     formatted_info <-
       (if Py.opt_truthy channel_id then
          channel_details <-
            YouTubeAPIClient.get_channel_details (api_client self)
              [default "" channel_id] ;;
          ret (YouTubeDataFormatter.format_channel_info item (head channel_details))
        else ret (YouTubeDataFormatter.format_channel_info item None)) ;;
     ret (formatted_results ++ [formatted_info]))
    (λ e, ret formatted_results).

(** One iteration of [for item in raw_results] for playlists. *)
Definition process_playlist_item (self : t W) (item : RawHit)
    (formatted_results : list Info) : M (St W) (list Info) :=
  try_except
    (let playlist_id := id_playlistId (default no_id (hit_id item)) in
     formatted_info <-
       (if Py.opt_truthy playlist_id then
          playlist_details <-
            YouTubeAPIClient.get_playlist_details (api_client self)
              [default "" playlist_id] ;;
          ret (YouTubeDataFormatter.format_playlist_info item (head playlist_details))
        else ret (YouTubeDataFormatter.format_playlist_info item None)) ;;
     ret (formatted_results ++ [formatted_info]))
    (λ e, ret formatted_results).

(** [YouTubeSearchService._process_results] *)
Definition _process_results (self : t W) (raw_results : list RawHit)
    (content_type : ContentType) (search_params : SearchParams)
  : M (St W) (list Info) :=
  match content_type with
  | video =>
      video_details_dict <- fetch_video_details self (collect_video_ids raw_results) ;;
      for_acc raw_results (process_video_item video_details_dict search_params) []
  | channel => for_acc raw_results (process_channel_item self) []
  | playlist => for_acc raw_results (process_playlist_item self) []
  end.

(** One iteration of [for category_id in category_ids]. *)
Definition search_category (self : t W) (search_params : SearchParams)
    (content_type : ContentType) (category_id : string)
    (all_formatted_results : list Info) : M (St W) (list Info) :=
  let type_params :=
    with_category_id (with_content_type search_params content_type)
                     (CatStr category_id) in
  try_except
    (raw_results <- YouTubeAPIClient.search_content (api_client self) type_params ;;
     formatted_results <- _process_results self raw_results content_type search_params ;;
     ret (all_formatted_results ++ formatted_results))
    (λ e, ret all_formatted_results).

(** One iteration of [for content_type in content_types]. *)
Definition search_content_type (self : t W) (search_params : SearchParams)
    (content_type : ContentType) (results : ResultSet) : M (St W) ResultSet :=
  let category_ids := sp_category_id search_params in
  match category_ids with
  | Some (CatList ((_ :: _) as category_ids)) =>
      all_formatted_results <-
        for_acc category_ids (search_category self search_params content_type) [] ;;
      let max_results := default 10%Z (sp_max_results search_params) in
      let formatted_results := dedup_loop max_results all_formatted_results ∅ [] in
      ret (store results content_type formatted_results)
  | _ =>
      let type_params := with_content_type search_params content_type in
      try_except
        (raw_results <- YouTubeAPIClient.search_content (api_client self) type_params ;;
         formatted_results <-
           _process_results self raw_results content_type search_params ;;
         ret (store results content_type formatted_results))
        (λ e, ret results)
  end.

(** [YouTubeSearchService.is_ready] *)
Definition is_ready (self : t W) : bool := YouTubeAPIClient.is_ready (api_client self).

(** [YouTubeSearchService.search] *)
Definition search (self : t W) (search_params : SearchParams) : M (St W) ResultSet :=
  if negb (is_ready self) then raise (Exception "YouTube API not initialized") else
  let results := {| videos := []; channels := []; playlists := [] |} in
  let content_types := default [video] (sp_content_types search_params) in
  for_acc content_types (search_content_type self search_params) results.

(** [YouTubeSearchService.__init__] *)
Definition __init__ (env : YouTubeAPIClient.Env) (api_key : option string) : t W :=
  {| api_client := YouTubeAPIClient.__init__ env api_key |}.

(** [YouTubeSearchService.set_api_key] *)
Definition set_api_key (env : YouTubeAPIClient.Env) (self : t W)
    (api_key : option string) : bool * t W :=
  let '(ok, client) := YouTubeAPIClient.set_api_key env (api_client self) api_key in
  (ok, {| api_client := client |}).


End Service.
End YouTubeSearchService.

(** ** Vocabulary of the statements *)

(** Duration tokens [PT#H#M#S]: each of the three components is either
    missing or a non-empty string of digits followed by its unit letter. *)
Module Token.

Fixpoint all_chars (p : ascii → bool) (s : string) : bool :=
  match s with
  | EmptyString => true
  | String c s' => p c && all_chars p s'
  end.

Definition is_number (s : string) : bool :=
  Py.str_truthy s && all_chars Py.is_digit s.

Definition well_formed (o : option string) : bool :=
  match o with
  | Some ds => is_number ds
  | None => true
  end.

Definition component (o : option string) (unit : ascii) : string :=
  match o with
  | Some ds => ds +:+ String unit EmptyString
  | None => EmptyString
  end.

Definition body (h m s : option string) : string :=
  component h "H" +:+ component m "M" +:+ component s "S".

Definition token (h m s : option string) : string := "PT" +:+ body h m s.

(** The number a component stands for; a missing one counts as zero. *)
Definition value (o : option string) : N :=
  match o with
  | Some ds => Py.int_of_digits ds
  | None => 0%N
  end.

(** What [_parse_duration] reads off its argument for one unit letter. *)
Definition extract (X : ascii) (duration_string : string) : N :=
  if Py.contains (String X EmptyString) duration_string then
    match Py.re_search_digits_then X duration_string with
    | Some g => Py.int_of_digits g
    | None => 0%N
    end
  else 0%N.

End Token.

(** Formatted results *)

(** [snippet.get('categoryId', '')] of a search hit. *)
Definition snippet_category (item : RawHit) : string :=
  default "" (sn_categoryId (default no_snippet (hit_snippet item))).

(** The six keys of a formatted video that the service looks at. *)
Record video_keys (item : RawHit) (video_details : option DetailRecord)
    (info : Info) : Prop := {
  vk_id : info !! "id" =
          Some (PStr (default "" (id_videoId (default no_id (hit_id item)))));
  vk_channel_id : info !! "channel_id" =
          Some (PStr (default "" (sn_channelId (default no_snippet (hit_snippet item)))));
  vk_video_id : info !! "video_id" = None;
  vk_playlist_id : info !! "playlist_id" = None;
  vk_topic_ids : info !! "topic_ids" = Some (PList []);
  vk_made_for_kids : info !! "made_for_kids" =
    match video_details with
    | Some details =>
        if detail_truthy details
        then Some (PBool (default false
                            (status_madeForKids (default no_status (d_status details)))))
        else None
    | None => None
    end }.

(** The topic list a formatted result carries under ['topic_ids'] (the
    empty list when the key is missing), provided the value is a list. *)
Definition topic_list (info : Info) : option (list string) :=
  match default (PList []) (info !! "topic_ids") with
  | PList l => Some l
  | _ => None
  end.

Definition sample_hit (video_id channel_id : string) : RawHit :=
  {| hit_id := Some {| id_videoId := Some video_id; id_channelId := None;
                       id_playlistId := None |};
     hit_snippet := Some {| sn_title := Some video_id; sn_description := None;
                            sn_channelTitle := None;
                            sn_channelId := Some channel_id;
                            sn_publishedAt := None;
                            sn_thumbnails_medium_url := None;
                            sn_categoryId := None |} |}.

Definition sample_params (content_types : list ContentType)
    (category_id : option CategoryValue) (max_results : Z)
    (topic_id : option string) (kids_filter : string) : SearchParams :=
  {| sp_query := Some "music"; sp_content_types := Some content_types;
     sp_content_type := None; sp_max_results := Some max_results;
     sp_order := None; sp_safe_search := None; sp_video_duration := None;
     sp_video_definition := None; sp_category_id := category_id;
     sp_published_after := None; sp_published_before := None;
     sp_region_code := None; sp_language := None;
     sp_topic_id := topic_id; sp_kids_filter := Some kids_filter |}.

Definition sample_detail (video_id : string) (status : option Status) : DetailRecord :=
  {| d_id := Some video_id; d_snippet := None; d_contentDetails := None;
     d_statistics := None; d_status := status; d_topicDetails := None;
     d_brandingSettings := None |}.

(** Remote requests *)

(** The [search.list] requests in a trace, oldest first. *)
Definition search_calls (cs : list RemoteCall) : list SearchArgs :=
  omap (λ c, match c with SearchList args => Some args | _ => None end) cs.

(** The [id] arguments of the [videos.list] requests in a trace. *)
Definition video_detail_calls (cs : list RemoteCall) : list string :=
  omap (λ c, match c with VideosList _ id => Some id | _ => None end) cs.

(** The exception [search_content] raises for a failure [e] of the remote
    request. *)
Definition search_failure (e : exn) : exn :=
  match e with
  | HttpError _ => Exception ("YouTube API error: " +:+ Py.exn_str e)
  | _ => Exception ("Search error: " +:+ Py.exn_str e)
  end.

(** The request of one fan-out unit. *)
Definition unit_args (p : SearchParams) (ct : ContentType) (c : string) : SearchArgs :=
  YouTubeAPIClient.search_args
    (with_category_id (with_content_type p ct) (CatStr c)).

Definition no_results : ResultSet :=
  {| videos := []; channels := []; playlists := [] |}.

(** The requests of the fan-out for one content type: one per category
    when ['category_id'] holds a non-empty list, one otherwise. *)
Definition fan_out (p : SearchParams) (ct : ContentType) : list SearchArgs :=
  match sp_category_id p with
  | Some (CatList ((_ :: _) as category_ids)) => map (unit_args p ct) category_ids
  | _ => [YouTubeAPIClient.search_args (with_content_type p ct)]
  end.

(** A service whose [search.list] requests for one content type all fail. *)
Definition search_fails_for {W} (yt : Service W) (ct : ContentType) : Prop :=
  ∀ args w, a_type args = ct → ∃ e, (search_list yt args w).1 = inl e.

(** [results['videos']], [results['channels']] or [results['playlists']]. *)
Definition results_of (ct : ContentType) (results : ResultSet) : list Info :=
  match ct with
  | video => videos results
  | channel => channels results
  | playlist => playlists results
  end.

(** The one [videos.list] request for the hits of a [search.list] response,
    if any of them has a video id. *)
Definition batched_lookup (raw_results : list RawHit) : list RemoteCall :=
  match YouTubeSearchService.collect_video_ids raw_results with
  | [] => []
  | video_ids =>
      [VideosList "snippet,contentDetails,statistics,status,topicDetails"
                  (Py.join "," video_ids)]
  end.

(** A service over a world without state: [search.list] answers by the
    category it is asked for, with [HttpError] for a category that is not in
    the table and for a request without a single category; the detail
    requests find nothing. *)
Definition service_by_category (table : list (string * list RawHit)) : Service unit :=
  {| search_list := λ args w,
       (match a_videoCategoryId args with
        | Some (CatStr c) =>
            match (list_to_map table : gmap string (list RawHit)) !! c with
            | Some hits => inr hits
            | None => inl (HttpError "quotaExceeded")
            end
        | _ => inl (HttpError "quotaExceeded")
        end, w);
     videos_list := λ _ _ w, (inr [], w);
     channels_list := λ _ _ w, (inr [], w);
     playlists_list := λ _ _ w, (inr [], w) |}.

Definition ready_service {W} (yt : Service W) : YouTubeSearchService.t W :=
  {| YouTubeSearchService.api_client :=
       {| YouTubeAPIClient.api_key := Some "key";
          YouTubeAPIClient.youtube := Some yt |} |}.

Definition unready_service : YouTubeSearchService.t unit :=
  {| YouTubeSearchService.api_client :=
       {| YouTubeAPIClient.api_key := None; YouTubeAPIClient.youtube := None |} |}.

Definition fresh : St unit := {| world := tt; calls := [] |}.

(** The ['id'] of each result. *)
Definition ids (results : list Info) : list (option pyval) :=
  map (λ info : Info, info !! "id") results.

(** The results that are the first to carry their key, given the keys
    already seen: what removing duplicates by [result_id] means. *)
Fixpoint first_by_key (results : list Info) (seen : gset (option pyval)) : list Info :=
  match results with
  | [] => []
  | result :: rest =>
      if bool_decide (YouTubeSearchService.result_id result ∈ seen)
      then first_by_key rest seen
      else result :: first_by_key rest (seen ∪ {[YouTubeSearchService.result_id result]})
  end.

(** The merged stream of one content type: the categories are searched in
    turn, the state going from one unit to the next; a unit whose search
    fails adds nothing, and one whose search succeeds adds the results
    [_process_results] makes of its hits. *)
Fixpoint succeeded_units {W} (self : YouTubeSearchService.t W) (yt : Service W)
    (p : SearchParams) (ct : ContentType) (category_ids : list string) (st : St W)
  : list Info * St W :=
  match category_ids with
  | [] => ([], st)
  | c :: rest =>
      let answer := search_list yt (unit_args p ct c) (world st) in
      let st1 := {| world := answer.2;
                    calls := calls st ++ [SearchList (unit_args p ct c)] |} in
      match answer.1 with
      | inl _ => succeeded_units self yt p ct rest st1
      | inr raw_results =>
          let processed :=
            YouTubeSearchService._process_results self raw_results ct p st1 in
          let later := succeeded_units self yt p ct rest processed.2 in
          (match processed.1 with
           | inr formatted_results => formatted_results
           | inl _ => []
           end ++ later.1, later.2)
      end
  end.

(** What comes back of a merged stream: the results that are the first to
    carry their key, up to the limit, where a limit below one counts as
    one and a missing limit as ten. *)
Definition kept_of_stream (p : SearchParams) (stream : list Info) : list Info :=
  take (Z.to_nat (Z.max 1 (default 10%Z (sp_max_results p)))) (first_by_key stream ∅).

(** A search over a list of categories, one content type after the other:
    the list of each content type is what is kept of its merged stream. *)
Fixpoint searched_types {W} (self : YouTubeSearchService.t W) (yt : Service W)
    (p : SearchParams) (category_ids : list string) (content_types : list ContentType)
    (results : ResultSet) (st : St W) : ResultSet * St W :=
  match content_types with
  | [] => (results, st)
  | ct :: rest =>
      let units := succeeded_units self yt p ct category_ids st in
      searched_types self yt p category_ids rest
        (YouTubeSearchService.store results ct (kept_of_stream p units.1)) units.2
  end.

(** The address a result of a given ['type'] starts with. *)
Definition url_base (type : string) : string :=
  if String.eqb type "video" then "https://www.youtube.com/watch?v="
  else if String.eqb type "channel" then "https://www.youtube.com/channel/"
  else "https://www.youtube.com/playlist?list=".

(** The ['type'], ['id'] and ['url'] of a formatted result agree: the
    address is empty when the id is, and the base of the type followed by
    the id otherwise. *)
Definition url_from_id (info : Info) : Prop :=
  ∃ type id,
    info !! "type" = Some (PStr type) ∧
    info !! "id" = Some (PStr id) ∧
    info !! "url" = Some (PStr (if Py.str_truthy id then url_base type +:+ id else "")).

(** [bool(details)] for the optional detail record of a formatter. *)
Definition has_details (details : option DetailRecord) : bool :=
  match details with
  | Some d => detail_truthy d
  | None => false
  end.

(** The keys of a formatted channel and of a formatted playlist: those
    every result has, and those only a detail record adds. *)
Definition channel_keys : gset string :=
  list_to_set ["type"; "id"; "title"; "description"; "published_at";
               "thumbnail_url"; "url"].
Definition channel_detail_keys : gset string :=
  list_to_set ["subscriber_count"; "video_count"; "view_count"; "keywords"].
Definition playlist_keys : gset string :=
  list_to_set ["type"; "id"; "title"; "description"; "channel_title"; "channel_id";
               "published_at"; "thumbnail_url"; "url"].
Definition playlist_detail_keys : gset string :=
  list_to_set ["item_count"; "privacy_status"].
Definition video_keys_always : gset string :=
  list_to_set ["type"; "id"; "title"; "description"; "channel_title"; "channel_id";
               "published_at"; "thumbnail_url"; "url"; "category_id"; "category_name";
               "topic_ids"; "topic_categories"; "topic_categories_formatted";
               "relevant_topic_names"; "inferred_topics"].
Definition video_detail_keys : gset string :=
  list_to_set ["duration"; "duration_readable"; "view_count"; "like_count";
               "comment_count"; "made_for_kids"; "privacy_status"].

(** The category ids that either table of the filter manager knows, and
    those to which both give the same name. *)
Definition category_ids_known : list string :=
  ["1"; "2"; "10"; "15"; "17"; "18"; "19"; "20"; "21"; "22"; "23"; "24";
   "25"; "26"; "27"; "28"; "29"; "30"; "31"; "32"; "33"; "34"; "35"; "36";
   "37"; "38"; "39"; "40"; "41"; "42"; "43"; "44"].
Definition category_ids_agreeing : list string :=
  ["1"; "2"; "10"; "15"; "17"; "18"; "19"; "20"; "21"; "22"; "23"; "24";
   "25"; "26"; "27"; "28"; "29"; "30"; "31"; "32"; "33"].

(** The topic ids that either table knows, and those to which both give
    the same name. *)
Definition topic_ids_known : list string :=
  ["/m/04rlf"; "/m/02mscn"; "/m/0ggq0m"; "/m/01lyv"; "/m/02lkt";
   "/m/0glt670"; "/m/05rwpb"; "/m/03_d0"; "/m/028sqc"; "/m/0g293";
   "/m/064t9"; "/m/06cqb"; "/m/06j6l"; "/m/06by7"; "/m/0gywn";
   "/m/0bzvm2"; "/m/025zzc"; "/m/02ntfj"; "/m/0b1vjn"; "/m/02hygl";
   "/m/04q1x3q"; "/m/01sjng"; "/m/0403l3g"; "/m/021bp2"; "/m/022dc6";
   "/m/03hf_rm"; "/m/06ntj"; "/m/0jm_"; "/m/018jz"; "/m/018w8";
   "/m/01cgz"; "/m/09xp_"; "/m/02vx4"; "/m/037hz"; "/m/03tmr";
   "/m/01h7lh"; "/m/0410tth"; "/m/07bs0"; "/m/07_53"; "/m/02jjt";
   "/m/09kqc"; "/m/02vxn"; "/m/05qjc"; "/m/066wd"; "/m/0f2f9";
   "/m/019_rr"; "/m/032tl"; "/m/027x7n"; "/m/02wbm"; "/m/03glg";
   "/m/068hy"; "/m/041xxh"; "/m/07c1v"; "/m/07bxq"; "/m/07yv9";
   "/m/01k8wb"; "/m/05pd6"; "/m/0342h"; "/m/015lz1"; "/m/0l14md";
   "/m/07gxw"; "/m/02w4v"; "/m/098wr"; "/m/01h6rj"; "/m/05qt0";
   "/m/02p0sh1"; "/m/01h44"; "/m/0kt51"; "/m/02p1r"; "/m/05qjt";
   "/m/09s1f"; "/m/04fn_"; "/m/06_fw"; "/m/0ch_cf"; "/m/01yrx";
   "/m/07bgp"].
Definition topic_ids_agreeing : list string :=
  ["/m/04rlf"; "/m/0glt670"; "/m/06cqb"; "/m/0bzvm2"; "/m/06ntj";
   "/m/02jjt"; "/m/02vxn"; "/m/019_rr"; "/m/02wbm"; "/m/07c1v";
   "/m/07bxq"; "/m/01k8wb"].

(** A name without slash and without underscore. *)
Definition plain_name (name : string) : bool :=
  Token.all_chars (λ c, negb (Ascii.eqb c "/") && negb (Ascii.eqb c "_")) name.

(** A string in which a character does not occur. *)
Definition lacks (c : ascii) (s : string) : bool :=
  Token.all_chars (λ x, negb (Ascii.eqb x c)) s.

(** A result that [format_video_info] can return. *)
Definition formatted_video (info : Info) : Prop :=
  ∃ item video_details,
    YouTubeDataFormatter.format_video_info item video_details = inr info.

(** The exceptions a client method lets out: a plain [Exception] whose
    message says that the client is not set up, or carries one of the two
    prefixes of the method. *)
Definition wrapped (kind : string) (e : exn) : Prop :=
  ∃ msg, e = Exception msg ∧
         (msg = "YouTube API client not initialized" ∨
          Py.startswith "YouTube API error: " msg = true ∨
          Py.startswith (kind +:+ " error: ") msg = true).

(** The surroundings of a client over a world without state: what the
    environment variable and the local configuration hold, and the keys
    for which the service can be built. *)
Definition sample_env (getenv config : option string) (accepted : list string)
  : YouTubeAPIClient.Env :=
  {| YouTubeAPIClient.getenv_YOUTUBE_API_KEY := getenv;
     YouTubeAPIClient.config_YOUTUBE_API_KEY := config;
     YouTubeAPIClient.build := λ key,
       if bool_decide (key ∈ accepted) then inr (service_by_category [])
       else inl (Exception "invalid developer key") |}.

(** Between two states at most one request was sent. *)
Definition at_most_one_request {W} (st st' : St W) : Prop :=
  calls st' = calls st ∨ ∃ c, calls st' = calls st ++ [c].

(** The detail requests [_process_results] sends for the hits of a
    [search.list] response: one for all videos, and one for each channel
    and each playlist that has an id. *)
Definition detail_lookups (ct : ContentType) (raw_results : list RawHit)
  : list RemoteCall :=
  match ct with
  | video => batched_lookup raw_results
  | channel =>
      flat_map (λ item,
                  let channel_id := id_channelId (default no_id (hit_id item)) in
                  if Py.opt_truthy channel_id
                  then [ChannelsList "snippet,statistics,brandingSettings"
                                     (default "" channel_id)]
                  else [])
               raw_results
  | playlist =>
      flat_map (λ item,
                  let playlist_id := id_playlistId (default no_id (hit_id item)) in
                  if Py.opt_truthy playlist_id
                  then [PlaylistsList "snippet,contentDetails,status"
                                      (default "" playlist_id)]
                  else [])
               raw_results
  end.

(** A service whose detail requests for channels and playlists never
    fail. *)
Definition detail_lookups_succeed {W} (yt : Service W) : Prop :=
  ∀ part id w, (∃ r, (channels_list yt part id w).1 = inr r) ∧
               (∃ r, (playlists_list yt part id w).1 = inr r).

(** A hit of a channel search and a hit of a playlist search. *)
Definition channel_hit (channel_id : string) : RawHit :=
  {| hit_id := Some {| id_videoId := None; id_channelId := Some channel_id;
                       id_playlistId := None |};
     hit_snippet := None |}.
Definition playlist_hit (playlist_id : string) : RawHit :=
  {| hit_id := Some {| id_videoId := None; id_channelId := None;
                       id_playlistId := Some playlist_id |};
     hit_snippet := None |}.

(** A video hit whose snippet carries a category. *)
Definition categorised_hit (video_id category_id : string) : RawHit :=
  {| hit_id := Some {| id_videoId := Some video_id; id_channelId := None;
                       id_playlistId := None |};
     hit_snippet := Some {| sn_title := None; sn_description := None;
                            sn_channelTitle := None; sn_channelId := None;
                            sn_publishedAt := None;
                            sn_thumbnails_medium_url := None;
                            sn_categoryId := Some category_id |} |}.

(** A video that [_process_results] may return for a hit: the hit as the
    formatter gives it with no detail record or with one whose id is the
    video id of the hit, and which [_should_include_video] accepts. *)
Definition video_of_hit (p : SearchParams) (item : RawHit) (info : Info) : Prop :=
  ∃ video_details,
    YouTubeDataFormatter.format_video_info item video_details = inr info ∧
    YouTubeSearchService._should_include_video info p = inr true ∧
    ∀ details, video_details = Some details →
               d_id details = id_videoId (default no_id (hit_id item)).


(** ** Proof tactics *)

Ltac run_monad :=
  cbv [bind modify get try_except ret raise set_key negb
       YouTubeDataFormatter._get_category_name
       YouTubeDataFormatter._format_topic_categories
       YouTubeDataFormatter._format_relevant_topic_ids].

Ltac lookup_simpl :=
  cbn [list_to_map foldr uncurry fst snd];
  repeat first
    [ rewrite lookup_insert_eq
    | rewrite lookup_insert_ne by done
    | rewrite lookup_empty ].

(** ** Duration parsing *)

Section Duration.
Import Token.
Local Arguments String.append !_ _ / : simpl nomatch.
Local Arguments Ascii.eqb : simpl never.
Local Arguments Py.is_digit : simpl never.

Lemma str_app_assoc (a b c : string) : (a +:+ b) +:+ c = a +:+ (b +:+ c).
Proof. induction a as [|x a IH]; simpl; [done | by rewrite IH]. Qed.

Lemma str_app_nil_r (a : string) : a +:+ "" = a.
Proof. induction a as [|x a IH]; simpl; [done | by rewrite IH]. Qed.

Lemma all_chars_app p (a b : string) :
  all_chars p (a +:+ b) = all_chars p a && all_chars p b.
Proof.
  induction a as [|x a IH]; simpl; [done|].
  rewrite IH. by destruct (p x).
Qed.

Lemma all_chars_impl (p q : ascii → bool) (s : string) :
  (∀ c, p c = true → q c = true) → all_chars p s = true → all_chars q s = true.
Proof.
  intros Hpq. induction s as [|x s IH]; simpl; [done|].
  intros [Hx Hs]%andb_prop. rewrite (Hpq _ Hx). simpl. by apply IH.
Qed.

(** A string without the letter P is left alone by [replace('PT', '')]. *)
Lemma replace_PT_none (s : string) :
  all_chars (λ c, negb (Ascii.eqb c "P")) s = true →
  Py.replace_from "PT" "" 0 s = s.
Proof.
  induction s as [|x s IH]; simpl; [done|].
  intros [Hx Hs]%andb_prop.
  rewrite Ascii.eqb_sym. destruct (Ascii.eqb x "P"); [done|].
  simpl. by rewrite IH.
Qed.

Lemma replace_PT_prefix (s : string) :
  all_chars (λ c, negb (Ascii.eqb c "P")) s = true →
  Py.replace "PT" "" ("PT" +:+ s) = s.
Proof.
  intros Hs. unfold Py.replace. simpl.
  destruct s as [|x s]; [done|].
  by apply replace_PT_none.
Qed.

(** Membership of a single letter distributes over concatenation. *)
Lemma contains_char_app (c : ascii) (a b : string) :
  Py.contains (String c "") (a +:+ b) =
  Py.contains (String c "") a || Py.contains (String c "") b.
Proof.
  induction a as [|x a IH]; simpl.
  - destruct b; simpl; done.
  - rewrite IH. destruct (Ascii.eqb c x); simpl; [done|].
    destruct a; simpl; done.
Qed.

Lemma contains_char_absent (c : ascii) (s : string) :
  all_chars (λ x, negb (Ascii.eqb x c)) s = true →
  Py.contains (String c "") s = false.
Proof.
  induction s as [|x s IH]; simpl; [done|].
  intros [Hx Hs]%andb_prop. rewrite Ascii.eqb_sym.
  destruct (Ascii.eqb x c); [done|]. simpl.
  rewrite (IH Hs). by destruct s.
Qed.

Lemma contains_char_last (c : ascii) (s : string) :
  Py.contains (String c "") (s +:+ String c "") = true.
Proof.
  rewrite contains_char_app. simpl. rewrite Ascii.eqb_refl.
  by rewrite orb_true_r.
Qed.

Lemma digit_not_letter (c X : ascii) :
  Py.is_digit X = false → Py.is_digit c = true → negb (Ascii.eqb c X) = true.
Proof.
  intros HX Hc. destruct (Ascii.eqb_spec c X) as [->|]; [congruence | done].
Qed.

(** The anchored pattern fails on digits that end in another letter. *)
Lemma match_digits_miss (X u : ascii) (ds rest : string) :
  Py.is_digit X = false →
  all_chars Py.is_digit ds = true → Py.is_digit u = false → u ≠ X →
  Py.match_digits_then X (ds +:+ String u rest) = None.
Proof.
  intros HX Hds Hu HuX. induction ds as [|d ds IH]; simpl in *.
  - by rewrite Hu.
  - apply andb_prop in Hds as [Hd Hds]. rewrite Hd, (IH Hds).
    destruct ds as [|d' ds]; simpl.
    + by destruct (Ascii.eqb_spec u X).
    + simpl in Hds. apply andb_prop in Hds as [Hd' _].
      destruct (Ascii.eqb_spec d' X) as [->|]; [congruence | done].
Qed.

(** It succeeds, with all the digits, when they end in the letter. *)
Lemma match_digits_hit (X : ascii) (ds rest : string) :
  Py.is_digit X = false → is_number ds = true →
  Py.match_digits_then X (ds +:+ String X rest) = Some ds.
Proof.
  intros HX [Hne Hds]%andb_prop.
  induction ds as [|d ds IH]; [done|]. simpl in *.
  apply andb_prop in Hds as [Hd Hds]. rewrite Hd.
  destruct ds as [|d' ds].
  - simpl. by rewrite HX, Ascii.eqb_refl.
  - by rewrite (IH eq_refl Hds).
Qed.

Lemma search_skip (X u : ascii) (ds rest : string) :
  Py.is_digit X = false →
  all_chars Py.is_digit ds = true → Py.is_digit u = false → u ≠ X →
  Py.re_search_digits_then X (ds +:+ String u rest) =
  Py.re_search_digits_then X rest.
Proof.
  intros HX Hds Hu HuX. induction ds as [|d ds IH].
  - simpl. by rewrite Hu.
  - change (String d ds +:+ String u rest) with (String d (ds +:+ String u rest)).
    cbn [Py.re_search_digits_then].
    change (String d (ds +:+ String u rest)) with (String d ds +:+ String u rest) at 1.
    rewrite (match_digits_miss X u (String d ds) rest HX Hds Hu HuX).
    simpl in Hds. apply andb_prop in Hds as [_ Hds]. by apply IH.
Qed.

Lemma search_hit (X : ascii) (ds rest : string) :
  Py.is_digit X = false → is_number ds = true →
  Py.re_search_digits_then X (ds +:+ String X rest) = Some ds.
Proof.
  intros HX Hds.
  pose proof (match_digits_hit X ds rest HX Hds) as Hm.
  destruct (ds +:+ String X rest); [done|].
  cbn [Py.re_search_digits_then]. by rewrite Hm.
Qed.

(** What [extract] finds in a component followed by more text. *)
Lemma extract_here (X : ascii) (ds rest : string) :
  Py.is_digit X = false → is_number ds = true →
  extract X (component (Some ds) X +:+ rest) = Py.int_of_digits ds.
Proof.
  intros HX Hds. unfold extract, component.
  rewrite str_app_assoc. simpl.
  rewrite contains_char_app. simpl. rewrite Ascii.eqb_refl, orb_true_r.
  by rewrite search_hit.
Qed.

Lemma extract_skip (X u : ascii) (o : option string) (rest : string) :
  Py.is_digit X = false → Py.is_digit u = false → u ≠ X →
  well_formed o = true →
  extract X (component o u +:+ rest) = extract X rest.
Proof.
  intros HX Hu HuX Ho. destruct o as [ds|]; [|done].
  apply andb_prop in Ho as [_ Hds].
  unfold extract, component. rewrite str_app_assoc. simpl.
  rewrite contains_char_app, search_skip by done.
  rewrite contains_char_absent; last first.
  { eapply all_chars_impl, Hds. intros c. by apply digit_not_letter. }
  simpl. destruct (Ascii.eqb_spec X u); [congruence|]. done.
Qed.

Lemma extract_component (X : ascii) (o : option string) :
  Py.is_digit X = false → well_formed o = true →
  extract X (component o X) = value o.
Proof.
  intros HX Ho. destruct o as [ds|]; [|done].
  rewrite <-(str_app_nil_r (component (Some ds) X)).
  by apply extract_here.
Qed.

Lemma extract_absent (X u : ascii) (o : option string) :
  Py.is_digit X = false → Py.is_digit u = false → u ≠ X →
  well_formed o = true →
  extract X (component o u) = 0%N.
Proof.
  intros HX Hu HuX Ho.
  rewrite <-(str_app_nil_r (component o u)).
  by rewrite extract_skip.
Qed.

Lemma extract_body (h m s : option string) :
  well_formed h = true → well_formed m = true → well_formed s = true →
  extract "H" (body h m s) = value h ∧
  extract "M" (body h m s) = value m ∧
  extract "S" (body h m s) = value s.
Proof.
  intros Hh Hm Hs. unfold body. split_and!.
  - destruct h as [ds|]; [by apply extract_here|].
    change (component None "H" +:+ ?r) with r.
    rewrite extract_skip by done. by apply extract_absent.
  - rewrite extract_skip by done.
    destruct m as [ds|]; [by apply extract_here|].
    change (component None "M" +:+ ?r) with r. by apply extract_absent.
  - rewrite !extract_skip by done. by apply extract_component.
Qed.

Lemma body_no_P (h m s : option string) :
  well_formed h = true → well_formed m = true → well_formed s = true →
  all_chars (λ c, negb (Ascii.eqb c "P")) (body h m s) = true.
Proof.
  assert (Hc : ∀ o (u : ascii), u ≠ "P"%char → well_formed o = true →
             all_chars (λ c, negb (Ascii.eqb c "P")) (component o u) = true).
  { intros [ds|] u HuP Ho; [|done]. apply andb_prop in Ho as [_ Hds].
    unfold component. rewrite all_chars_app. simpl.
    rewrite (all_chars_impl _ _ _ (λ c, digit_not_letter c "P" eq_refl) Hds).
    by destruct (Ascii.eqb_spec u "P"). }
  intros Hh Hm Hs. unfold body. rewrite !all_chars_app.
  by rewrite !Hc.
Qed.

Lemma parse_duration_unfold (d : string) :
  d ≠ "" →
  YouTubeDataFormatter._parse_duration d =
  let d := Py.replace "PT" "" d in
  if (0 <? extract "H" d)%N
  then Py.format_02d (extract "H" d) +:+ ":" +:+ Py.format_02d (extract "M" d)
       +:+ ":" +:+ Py.format_02d (extract "S" d)
  else Py.format_02d (extract "M" d) +:+ ":" +:+ Py.format_02d (extract "S" d).
Proof.
  intros Hd. unfold YouTubeDataFormatter._parse_duration.
  by destruct (String.eqb_spec d "").
Qed.

(** The decimal numeral of a number is never shorter than what is already
    accumulated, so [format_02d] always yields at least two characters. *)
Lemma pretty_N_go_length (x : N) (s : string) :
  (String.length s ≤ String.length (pretty_N_go x s))%nat.
Proof.
  revert s. induction (N.lt_wf_0 x) as [x _ IH]; intros s.
  destruct (decide (x = 0%N)) as [->|Hx].
  - by rewrite pretty_N_go_0.
  - rewrite pretty_N_go_step by lia.
    etrans; [|apply IH; apply N.div_lt; lia]. simpl. lia.
Qed.

Lemma format_02d_width (n : N) : (2 ≤ String.length (Py.format_02d n))%nat.
Proof.
  unfold Py.format_02d.
  destruct (Nat.ltb_spec (String.length (pretty n)) 2) as [Hlt|]; [|done].
  simpl. apply le_n_S.
  unfold pretty, pretty_N. destruct (decide (n = 0%N)) as [->|Hn]; [simpl; lia|].
  rewrite pretty_N_go_step by lia.
  etrans; [|apply pretty_N_go_length]. simpl. lia.
Qed.

(** C9. Duration parsing: the empty token gives "Unknown"; a token
    [PT#H#M#S] in which any of the three components may be missing gives
    [MM:SS] when the hours are zero and [HH:MM:SS] otherwise, every
    component written with at least two digits, zero-padded; in particular
    "PT1H2M3S" gives "01:02:03" and "PT4M13S" gives "04:13". *)
Theorem parse_duration_tokens (h m s : option string) :
  well_formed h = true → well_formed m = true → well_formed s = true →
  YouTubeDataFormatter._parse_duration "" = "Unknown" ∧
  YouTubeDataFormatter._parse_duration (token h m s) =
    (if (value h =? 0)%N
     then Py.format_02d (value m) +:+ ":" +:+ Py.format_02d (value s)
     else Py.format_02d (value h) +:+ ":" +:+ Py.format_02d (value m)
          +:+ ":" +:+ Py.format_02d (value s)) ∧
  (∀ n, (2 ≤ String.length (Py.format_02d n))%nat) ∧
  YouTubeDataFormatter._parse_duration "PT1H2M3S" = "01:02:03" ∧
  YouTubeDataFormatter._parse_duration "PT4M13S" = "04:13".
Proof.
  intros Hh Hm Hs. split_and!; [done | | apply format_02d_width | done | done].
  rewrite parse_duration_unfold by done. cbv zeta.
  unfold token. rewrite replace_PT_prefix by by apply body_no_P.
  destruct (extract_body h m s Hh Hm Hs) as (-> & -> & ->).
  destruct (N.eqb_spec (value h) 0) as [->|Hne]; [done|].
  by destruct (N.ltb_spec 0 (value h)); [|lia].
Qed.

Lemma parse_duration_tokens_witness :
  well_formed (Some "12") = true ∧ well_formed None = true ∧
  well_formed (Some "07") = true ∧
  YouTubeDataFormatter._parse_duration "PT12H07S" = "12:00:07".
Proof.
  split_and!; [reflexivity | reflexivity | reflexivity |].
  exact (proj1 (proj2 (parse_duration_tokens (Some "12") None (Some "07")
                         eq_refl eq_refl eq_refl))).
Defined.

End Duration.

(** ** The formatter *)

Section Formatter.
Import YouTubeDataFormatter.

(** A hit whose snippet carries a category makes the formatter fail. *)
Lemma format_video_info_raises (item : RawHit) (video_details : option DetailRecord) :
  Py.str_truthy (snippet_category item) = true →
  format_video_info item video_details = inl (AttributeError
    "type object 'YouTubeDataFormatter' has no attribute '_get_category_name'").
Proof.
  unfold snippet_category. intros Hcat.
  unfold format_video_info, format_video_info_body.
  rewrite Hcat. by run_monad.
Qed.

Lemma format_video_info_returns (item : RawHit) (video_details : option DetailRecord) :
  Py.str_truthy (snippet_category item) = false →
  ∃ info, format_video_info item video_details = inr info ∧
          video_keys item video_details info.
Proof.
  unfold snippet_category. intros Hcat.
  unfold format_video_info, format_video_info_body.
  rewrite Hcat. run_monad.
  destruct video_details as [details|]; [destruct (detail_truthy details) eqn:Ht|].
  - cbn [negb]. unfold get_truthy. lookup_simpl.
    cbn [Py.truthy Py.str_truthy String.eqb negb].
    destruct (Py.str_truthy (default "" (ds_categoryId _)));
      (eexists; split; [reflexivity|]); split; rewrite ?Ht; by lookup_simpl.
  - cbn [negb]. eexists; split; [reflexivity|]. split; rewrite ?Ht; by lookup_simpl.
  - eexists; split; [reflexivity|]. split; by lookup_simpl.
Qed.

End Formatter.

(** ** The post-filters *)

Section Filters.
Import YouTubeSearchService.

Lemma topic_filter_rejects_list (info : Info) (p : SearchParams) (l : list string) :
  topic_list info = Some l →
  topic_filter_rejects info p =
    inr (Py.opt_truthy (sp_topic_id p) && negb (bool_decide (l = [])) &&
         negb (bool_decide (default "" (sp_topic_id p) ∈ l))).
Proof.
  unfold topic_list, topic_filter_rejects. intros Hl.
  destruct (default (PList []) (info !! "topic_ids")) as [| | |l']; [done..|].
  injection Hl as ->.
  destruct (Py.opt_truthy (sp_topic_id p)); [|done].
  by destruct l as [|x l].
Qed.

Lemma filter_by_topic_loop_lists (results : list Info) (t : string) :
  Forall (λ r, is_Some (topic_list r)) results →
  FilterManager.filter_by_topic_loop results t =
    inr (List.filter (λ r, bool_decide (t ∈ default [] (topic_list r))) results).
Proof.
  induction 1 as [|r results [l Hl] _ IH]; [done|].
  simpl. rewrite IH, Hl. unfold topic_list in Hl.
  destruct (default (PList []) (r !! "topic_ids")) as [| | |l']; [done..|].
  injection Hl as ->. simpl. by destruct (bool_decide (t ∈ l)).
Qed.

(** Every video the formatter returns has an empty topic list (the topics
    of the detail record are lost when [_format_topic_categories] cannot be
    found), so no video in the pipeline is dropped for its topics. *)
Lemma topic_filter_passes_formatted (item : RawHit) (od : option DetailRecord)
    (info : Info) (p : SearchParams) :
  YouTubeDataFormatter.format_video_info item od = inr info →
  topic_list info = Some [] ∧ topic_filter_rejects info p = inr false.
Proof.
  intros Hf.
  destruct (Py.str_truthy (snippet_category item)) eqn:Hcat.
  { by rewrite format_video_info_raises in Hf. }
  destruct (format_video_info_returns item od Hcat) as (info' & Hf' & Hk).
  assert (info' = info) as -> by congruence.
  assert (Hl : topic_list info = Some []).
  { unfold topic_list. by rewrite (vk_topic_ids _ _ _ Hk). }
  split; [done|]. rewrite (topic_filter_rejects_list info p [] Hl).
  by rewrite andb_false_r.
Qed.

(** C4, as the code has it.  The topic filter the orchestrator applies lets
    a result through when no topic is requested, when the result's topic
    list is empty, or when the requested topic is in that list, and drops
    it otherwise; [FilterManager.filter_by_topic] keeps exactly the results
    whose list contains the requested topic. *)
Theorem topic_filter_lenient_on_empty (info : Info) (p : SearchParams) (l : list string) :
  topic_list info = Some l →
  kids_filter_rejects info p = false →
  _should_include_video info p =
    inr (negb (Py.opt_truthy (sp_topic_id p)) || bool_decide (l = []) ||
         bool_decide (default "" (sp_topic_id p) ∈ l)) ∧
  ∀ results, Forall (λ r, is_Some (topic_list r)) results →
    FilterManager.filter_by_topic results (sp_topic_id p) =
      inr (if Py.opt_truthy (sp_topic_id p)
           then List.filter (λ r, bool_decide (default "" (sp_topic_id p)
                                               ∈ default [] (topic_list r))) results
           else results).
Proof.
  intros Hl Hk. split.
  - unfold _should_include_video.
    rewrite (topic_filter_rejects_list info p l Hl), Hk.
    destruct (Py.opt_truthy (sp_topic_id p)), (bool_decide (l = [])),
      (bool_decide (default "" (sp_topic_id p) ∈ l)); done.
  - intros results Hres. unfold FilterManager.filter_by_topic.
    destruct (Py.opt_truthy (sp_topic_id p)); [|done].
    by apply filter_by_topic_loop_lists.
Qed.

Lemma topic_filter_lenient_on_empty_witness :
  let info : Info := {[ "topic_ids" := PList ["/m/04rlf"; "/m/064t9"] ]} in
  let p := sample_params [video] None 10 (Some "/m/064t9") "any" in
  topic_list info = Some ["/m/04rlf"; "/m/064t9"] ∧
  kids_filter_rejects info p = false ∧
  _should_include_video info p = inr true.
Proof.
  split_and!; [reflexivity | reflexivity |].
  exact (proj1 (topic_filter_lenient_on_empty
                  {[ "topic_ids" := PList ["/m/04rlf"; "/m/064t9"] ]}
                  (sample_params [video] None 10 (Some "/m/064t9") "any")
                  ["/m/04rlf"; "/m/064t9"] eq_refl eq_refl)).
Defined.

(** C4, as stated, fails: a formatted video whose topic list is empty
    passes the filter although a topic is requested. *)
Lemma topic_filter_passes_empty_list :
  let p := sample_params [video] None 10 (Some "/m/04rlf") "any" in
  match YouTubeDataFormatter.format_video_info (sample_hit "X1" "UC1") None with
  | inr info => (info !! "topic_ids", _should_include_video info p)
  | inl e => (None, inl e)
  end = (Some (PList []), inr true).
Proof. vm_compute. reflexivity. Qed.

(** C8. The kids filter, for a result the topic filter lets through:
    it passes when the filter value is 'any'; with 'yes' or 'no' and a
    made-for-kids flag on the result it passes exactly when the flag is the
    boolean the value stands for; and a result without the field passes
    whatever the filter value. *)
Theorem kids_filter_policy (info : Info) (p : SearchParams) :
  topic_filter_rejects info p = inr false →
  (sp_kids_filter p = Some "any" → _should_include_video info p = inr true) ∧
  (∀ flag, info !! "made_for_kids" = Some (PBool flag) →
     (sp_kids_filter p = Some "yes" →
      _should_include_video info p = inr (Bool.eqb flag true)) ∧
     (sp_kids_filter p = Some "no" →
      _should_include_video info p = inr (Bool.eqb flag false))) ∧
  (info !! "made_for_kids" = None → _should_include_video info p = inr true).
Proof.
  intros Ht. unfold _should_include_video, kids_filter_rejects. rewrite Ht.
  split_and!.
  - intros ->. simpl. done.
  - intros flag ->. split; intros ->; simpl; by destruct flag.
  - intros ->. simpl. by rewrite andb_false_r.
Qed.

Lemma kids_filter_policy_witness :
  let info : Info := {[ "made_for_kids" := PBool true ]} in
  let p := sample_params [video] None 10 None "no" in
  topic_filter_rejects info p = inr false ∧
  _should_include_video info p = inr false.
Proof.
  split; [reflexivity|].
  exact (proj2 (proj1 (proj2 (kids_filter_policy
           {[ "made_for_kids" := PBool true ]}
           (sample_params [video] None 10 None "no") eq_refl)) true eq_refl) eq_refl).
Defined.

(** Every record in the lookup dictionary of [_process_results] has an
    ['id'], so it is a true value for [if video_details:]. *)
Lemma details_lookup_truthy (video_details_list : list DetailRecord)
    (video_id : string) (found : DetailRecord) :
  details_lookup video_details_list !! video_id = Some found →
  detail_truthy found = true.
Proof.
  unfold details_lookup.
  assert (Hgen : ∀ (acc : gmap string DetailRecord),
    (∀ k d, acc !! k = Some d → detail_truthy d = true) →
    ∀ k d,
      fold_left (λ video_details_dict details,
                   match d_id details with
                   | Some video_id =>
                       if Py.str_truthy video_id
                       then <[video_id := details]> video_details_dict
                       else video_details_dict
                   | None => video_details_dict
                   end) video_details_list acc !! k = Some d →
      detail_truthy d = true).
  { induction video_details_list as [|details l IH]; intros acc Hacc k d; simpl.
    - apply Hacc.
    - apply IH. destruct (d_id details) as [vid|] eqn:Hid; [|done].
      destruct (Py.str_truthy vid); [|done].
      intros k' d'. rewrite lookup_insert. case_decide.
      + intros [= <-]. unfold detail_truthy. by rewrite Hid.
      + apply Hacc. }
  apply Hgen. intros k d. by rewrite lookup_empty.
Qed.

(** C10. A video formatted with a detail record always carries
    [made_for_kids], [False] when the record has no status block or no
    [madeForKids] key, and is then dropped by the filter value 'yes'; only
    a video formatted without a detail record lacks the field, and the kids
    filter never drops it.  The formatter returns whenever the snippet of
    the hit has no category, and every record the service finds in its
    lookup dictionary is a record in this sense. *)
Theorem made_for_kids_defaults_to_false (item : RawHit) (details : DetailRecord) :
  detail_truthy details = true →
  (∀ info, YouTubeDataFormatter.format_video_info item (Some details) = inr info →
     info !! "made_for_kids" =
       Some (PBool (default false
                      (status_madeForKids (default no_status (d_status details))))) ∧
     (status_madeForKids (default no_status (d_status details)) = None →
      ∀ p, sp_kids_filter p = Some "yes" → _should_include_video info p = inr false)) ∧
  (∀ info, YouTubeDataFormatter.format_video_info item None = inr info →
     info !! "made_for_kids" = None ∧
     ∀ p, kids_filter_rejects info p = false) ∧
  (Py.str_truthy (snippet_category item) = false →
   ∃ info, YouTubeDataFormatter.format_video_info item (Some details) = inr info) ∧
  (∀ video_details_list video_id found,
     details_lookup video_details_list !! video_id = Some found →
     detail_truthy found = true).
Proof.
  intros Ht.
  assert (Hcases : ∀ od info,
            YouTubeDataFormatter.format_video_info item od = inr info →
            video_keys item od info).
  { intros od info Hf.
    destruct (Py.str_truthy (snippet_category item)) eqn:Hcat.
    - by rewrite format_video_info_raises in Hf.
    - destruct (format_video_info_returns item od Hcat) as (info' & Hf' & Hk).
      congruence. }
  split_and!.
  - intros info [_ _ _ _ Htopic Hkids]%Hcases. rewrite Ht in Hkids.
    split; [done|]. intros Hnone p Hyes.
    unfold _should_include_video, topic_filter_rejects, kids_filter_rejects.
    rewrite Htopic, Hkids, Hnone, Hyes. simpl.
    by destruct (Py.opt_truthy (sp_topic_id p)).
  - intros info [_ _ _ _ _ Hkids]%Hcases. split; [done|].
    intros p. unfold kids_filter_rejects. rewrite Hkids. simpl.
    by rewrite andb_false_r.
  - intros Hcat.
    destruct (format_video_info_returns item (Some details) Hcat) as (info & Hf & _).
    eauto.
  - apply details_lookup_truthy.
Qed.

Lemma made_for_kids_defaults_to_false_witness :
  let item := sample_hit "X1" "UC1" in
  let details := sample_detail "X1" None in
  detail_truthy details = true ∧
  ∃ info, YouTubeDataFormatter.format_video_info item (Some details) = inr info ∧
          info !! "made_for_kids" = Some (PBool false).
Proof.
  split; [reflexivity|].
  pose proof (made_for_kids_defaults_to_false (sample_hit "X1" "UC1")
                (sample_detail "X1" None) eq_refl) as (Hfield & _ & Hret & _).
  destruct (Hret eq_refl) as [info Hinfo].
  exists info. split; [exact Hinfo|]. exact (proj1 (Hfield info Hinfo)).
Defined.

End Filters.

(** ** The remote calls of the service *)

Section Calls.
Context {W : Type}.
Implicit Types (self : YouTubeSearchService.t W) (st : St W).
Import YouTubeAPIClient YouTubeSearchService.

Lemma search_calls_app (cs1 cs2 : list RemoteCall) :
  search_calls (cs1 ++ cs2) = search_calls cs1 ++ search_calls cs2.
Proof. apply omap_app. Qed.

Lemma video_detail_calls_app (cs1 cs2 : list RemoteCall) :
  video_detail_calls (cs1 ++ cs2) = video_detail_calls cs1 ++ video_detail_calls cs2.
Proof. apply omap_app. Qed.

(** What one call of each client method does to the state. *)
Lemma search_content_run (api : YouTubeAPIClient.t W) (yt : Service W)
    (p : SearchParams) st :
  youtube api = Some yt →
  search_content api p st =
    (match (search_list yt (search_args p) (world st)).1 with
     | inr raw_results => inr raw_results
     | inl e => inl (search_failure e)
     end,
     {| world := (search_list yt (search_args p) (world st)).2;
        calls := calls st ++ [SearchList (search_args p)] |}).
Proof.
  intros Hyt. unfold search_content, YouTubeAPIClient.is_ready, the_service.
  rewrite Hyt. cbv [Py.present negb try_except bind ret raise execute].
  destruct (search_list yt (search_args p) (world st)) as [[e|raw] w]; [|done].
  by destruct e.
Qed.

Lemma get_video_details_run (api : YouTubeAPIClient.t W) (yt : Service W)
    (ids : list string) st :
  youtube api = Some yt →
  ∃ r w,
    get_video_details api ids st =
      (r, {| world := w;
             calls := calls st ++
               [VideosList "snippet,contentDetails,statistics,status,topicDetails"
                           (Py.join "," ids)] |}).
Proof.
  intros Hyt. unfold get_video_details, YouTubeAPIClient.is_ready, the_service.
  rewrite Hyt. cbv [Py.present negb try_except bind ret raise execute].
  destruct (videos_list yt _ _ (world st)) as [[e|raw] w]; [|by eauto].
  destruct e; by eauto.
Qed.

Lemma get_channel_details_run (api : YouTubeAPIClient.t W) (yt : Service W)
    (ids : list string) st :
  youtube api = Some yt →
  ∃ r w c,
    get_channel_details api ids st = (r, {| world := w; calls := calls st ++ [c] |}) ∧
    search_calls [c] = [] ∧ video_detail_calls [c] = [].
Proof.
  intros Hyt. unfold get_channel_details, YouTubeAPIClient.is_ready, the_service.
  rewrite Hyt. cbv [Py.present negb try_except bind ret raise execute].
  destruct (channels_list yt _ _ (world st)) as [[e|raw] w]; [|by eauto 10].
  destruct e; by eauto 10.
Qed.

Lemma get_playlist_details_run (api : YouTubeAPIClient.t W) (yt : Service W)
    (ids : list string) st :
  youtube api = Some yt →
  ∃ r w c,
    get_playlist_details api ids st = (r, {| world := w; calls := calls st ++ [c] |}) ∧
    search_calls [c] = [] ∧ video_detail_calls [c] = [].
Proof.
  intros Hyt. unfold get_playlist_details, YouTubeAPIClient.is_ready, the_service.
  rewrite Hyt. cbv [Py.present negb try_except bind ret raise execute].
  destruct (playlists_list yt _ _ (world st)) as [[e|raw] w]; [|by eauto 10].
  destruct e; by eauto 10.
Qed.

Lemma st_eta st : {| world := world st; calls := calls st ++ [] |} = st.
Proof. destruct st. simpl. by rewrite app_nil_r. Qed.

(** The loop that formats videos sends nothing and cannot fail. *)
Lemma process_video_items_pure (dict : gmap string DetailRecord) (p : SearchParams)
    (raw_results : list RawHit) (acc : list Info) st :
  ∃ infos, for_acc raw_results (process_video_item dict p) acc st = (inr infos, st).
Proof.
  revert acc. induction raw_results as [|item raw IH]; intros acc; simpl.
  - by eexists.
  - unfold bind at 1, process_video_item at 1.
    cbv [bind try_except lift ret raise].
    destruct (YouTubeDataFormatter.format_video_info item _) as [e|info];
      [apply IH|].
    destruct (_should_include_video info p) as [e|[]]; apply IH.
Qed.

Lemma fetch_video_details_run self (yt : Service W) (raw_results : list RawHit) st :
  youtube (api_client self) = Some yt →
  ∃ dict w,
    fetch_video_details self (collect_video_ids raw_results) st =
      (inr dict, {| world := w; calls := calls st ++ batched_lookup raw_results |}).
Proof.
  intros Hyt. unfold fetch_video_details, batched_lookup.
  destruct (collect_video_ids raw_results) as [|video_id ids].
  - exists ∅, (world st). by rewrite st_eta.
  - unfold try_except, bind.
    destruct (get_video_details_run (api_client self) yt (video_id :: ids) st Hyt)
      as (r & w & ->).
    destruct r as [e|video_details_list]; by eauto.
Qed.

Lemma process_videos_run self (yt : Service W)
    (raw_results : list RawHit) (p : SearchParams) st :
  youtube (api_client self) = Some yt →
  ∃ infos w,
    _process_results self raw_results video p st =
      (inr infos, {| world := w; calls := calls st ++ batched_lookup raw_results |}).
Proof.
  intros Hyt. unfold _process_results, bind.
  destruct (fetch_video_details_run self yt raw_results st Hyt) as (dict & w & ->).
  destruct (process_video_items_pure dict p raw_results []
              {| world := w; calls := calls st ++ batched_lookup raw_results |})
    as [infos ->].
  by exists infos, w.
Qed.

(** The loops over channels and playlists cannot fail either, and send no
    [search.list] and no [videos.list] request. *)
Lemma process_channel_items_run self (yt : Service W) (raw_results : list RawHit)
    (acc : list Info) st :
  youtube (api_client self) = Some yt →
  ∃ infos st',
    for_acc raw_results (process_channel_item self) acc st = (inr infos, st') ∧
    search_calls (calls st') = search_calls (calls st) ∧
    video_detail_calls (calls st') = video_detail_calls (calls st).
Proof.
  intros Hyt. revert acc st.
  induction raw_results as [|item raw IH]; intros acc st; simpl.
  - by eauto.
  - unfold bind at 1, process_channel_item at 1.
    cbv [bind try_except ret].
    destruct (Py.opt_truthy (id_channelId (default no_id (hit_id item)))).
    + destruct (get_channel_details_run (api_client self) yt
                  [default "" (id_channelId (default no_id (hit_id item)))] st Hyt)
        as (r & w & c & -> & Hs & Hv).
      destruct r as [e|channel_details];
        (edestruct IH as (infos & st' & Hrun & Hs' & Hv');
         rewrite Hrun; exists infos, st'; split; [done|];
         rewrite Hs', Hv'; simpl;
         by rewrite search_calls_app, video_detail_calls_app, Hs, Hv, !app_nil_r).
    + apply IH.
Qed.

Lemma process_playlist_items_run self (yt : Service W) (raw_results : list RawHit)
    (acc : list Info) st :
  youtube (api_client self) = Some yt →
  ∃ infos st',
    for_acc raw_results (process_playlist_item self) acc st = (inr infos, st') ∧
    search_calls (calls st') = search_calls (calls st) ∧
    video_detail_calls (calls st') = video_detail_calls (calls st).
Proof.
  intros Hyt. revert acc st.
  induction raw_results as [|item raw IH]; intros acc st; simpl.
  - by eauto.
  - unfold bind at 1, process_playlist_item at 1.
    cbv [bind try_except ret].
    destruct (Py.opt_truthy (id_playlistId (default no_id (hit_id item)))).
    + destruct (get_playlist_details_run (api_client self) yt
                  [default "" (id_playlistId (default no_id (hit_id item)))] st Hyt)
        as (r & w & c & -> & Hs & Hv).
      destruct r as [e|playlist_details];
        (edestruct IH as (infos & st' & Hrun & Hs' & Hv');
         rewrite Hrun; exists infos, st'; split; [done|];
         rewrite Hs', Hv'; simpl;
         by rewrite search_calls_app, video_detail_calls_app, Hs, Hv, !app_nil_r).
    + apply IH.
Qed.

Lemma batched_lookup_calls (raw_results : list RawHit) :
  search_calls (batched_lookup raw_results) = [] ∧
  (length (video_detail_calls (batched_lookup raw_results)) ≤ 1)%nat.
Proof. unfold batched_lookup. destruct (collect_video_ids raw_results); simpl; auto. Qed.

(** [_process_results] always returns, sends no [search.list] request and
    at most one [videos.list] request. *)
Lemma process_results_run self (yt : Service W) (raw_results : list RawHit)
    (ct : ContentType) (p : SearchParams) st :
  youtube (api_client self) = Some yt →
  ∃ infos st',
    _process_results self raw_results ct p st = (inr infos, st') ∧
    search_calls (calls st') = search_calls (calls st) ∧
    (length (video_detail_calls (calls st')) ≤
     length (video_detail_calls (calls st)) + 1)%nat.
Proof.
  intros Hyt. destruct ct.
  - destruct (process_videos_run self yt raw_results p st Hyt)
      as (infos & w & ->).
    destruct (batched_lookup_calls raw_results) as [Hs Hv].
    eexists _, _. split; [done|]. simpl.
    rewrite search_calls_app, video_detail_calls_app, Hs, app_nil_r, length_app.
    split; [done | lia].
  - unfold _process_results.
    destruct (process_channel_items_run self yt raw_results [] st Hyt)
      as (infos & st' & -> & Hs & Hv). eexists _, _. split; [done|]. rewrite Hs, Hv. split; [done|lia].
  - unfold _process_results.
    destruct (process_playlist_items_run self yt raw_results [] st Hyt)
      as (infos & st' & -> & Hs & Hv). eexists _, _. split; [done|]. rewrite Hs, Hv. split; [done|lia].
Qed.

(** One fan-out unit: it always returns, sends exactly one [search.list]
    request, and leaves the accumulated results alone when that fails. *)
Lemma search_category_run self (yt : Service W) (p : SearchParams)
    (ct : ContentType) (c : string) (acc : list Info) st :
  youtube (api_client self) = Some yt →
  ∃ acc' st',
    search_category self p ct c acc st = (inr acc', st') ∧
    search_calls (calls st') = search_calls (calls st) ++ [unit_args p ct c] ∧
    (length (video_detail_calls (calls st')) ≤
     length (video_detail_calls (calls st)) + 1)%nat ∧
    (∀ e, (search_list yt (unit_args p ct c) (world st)).1 = inl e →
          acc' = acc ∧
          st' = {| world := (search_list yt (unit_args p ct c) (world st)).2;
                   calls := calls st ++ [SearchList (unit_args p ct c)] |}).
Proof.
  intros Hyt. unfold search_category, try_except. unfold bind at 1.
  rewrite (search_content_run _ yt _ _ Hyt). fold (unit_args p ct c).
  destruct (search_list yt (unit_args p ct c) (world st)).1 as [e|raw_results] eqn:Hr.
  - cbv [ret]. eexists _, _. split; [done|]. simpl.
    rewrite search_calls_app, video_detail_calls_app, app_nil_r.
    split_and!; [done | lia | done].
  - unfold bind.
    destruct (process_results_run self yt raw_results ct p
                {| world := (search_list yt (unit_args p ct c) (world st)).2;
                   calls := calls st ++ [SearchList (unit_args p ct c)] |} Hyt)
      as (infos & st' & -> & Hs & Hv).
    cbv [ret]. eexists _, _. split; [done|]. rewrite Hs. simpl in *.
    rewrite search_calls_app. rewrite video_detail_calls_app, app_nil_r in Hv.
    split_and!; [done | done | done].
Qed.

Lemma search_categories_run self (yt : Service W) (p : SearchParams)
    (ct : ContentType) (cats : list string) (acc : list Info) st :
  youtube (api_client self) = Some yt →
  ∃ acc' st',
    for_acc cats (search_category self p ct) acc st = (inr acc', st') ∧
    search_calls (calls st') = search_calls (calls st) ++ map (unit_args p ct) cats ∧
    (length (video_detail_calls (calls st')) ≤
     length (video_detail_calls (calls st)) + length cats)%nat ∧
    (search_fails_for yt ct → acc' = acc).
Proof.
  intros Hyt. revert acc st.
  induction cats as [|c cats IH]; intros acc st; simpl.
  - eexists _, _. split; [done|]. rewrite app_nil_r. split_and!; [done | lia | done].
  - unfold bind at 1.
    destruct (search_category_run self yt p ct c acc st Hyt)
      as (acc1 & st1 & -> & Hs1 & Hv1 & Hfail1).
    destruct (IH acc1 st1) as (acc2 & st2 & -> & Hs2 & Hv2 & Hfail2).
    eexists _, _. split; [done|]. rewrite Hs2, Hs1, <-app_assoc.
    split_and!; [done | lia |].
    intros Hall. rewrite (Hfail2 Hall).
    destruct (Hall (unit_args p ct c) (world st) eq_refl) as [e He].
    by destruct (Hfail1 e He).
Qed.

Lemma results_of_store (ct0 ct : ContentType) (results : ResultSet)
    (formatted_results : list Info) :
  results_of ct0 (store results ct formatted_results) =
  if decide (ct0 = ct) then formatted_results else results_of ct0 results.
Proof. by destruct ct0, ct. Qed.

(** One content type: it always returns and sends the requests of its
    fan-out, whatever they answer; a list that was empty stays empty when
    the requests for its content type all fail. *)
Lemma search_content_type_run self (yt : Service W) (p : SearchParams)
    (ct : ContentType) (results : ResultSet) st :
  youtube (api_client self) = Some yt →
  ∃ results' st',
    search_content_type self p ct results st = (inr results', st') ∧
    search_calls (calls st') = search_calls (calls st) ++ fan_out p ct ∧
    (length (video_detail_calls (calls st')) ≤
     length (video_detail_calls (calls st)) + length (fan_out p ct))%nat ∧
    (∀ ct0, search_fails_for yt ct0 →
            results_of ct0 results = [] → results_of ct0 results' = []).
Proof.
  intros Hyt.
  assert (Hsingle : ∃ results' st',
    try_except
      (raw_results <- search_content (api_client self) (with_content_type p ct) ;;
       formatted_results <- _process_results self raw_results ct p ;;
       ret (store results ct formatted_results))
      (λ e, ret results) st = (inr results', st') ∧
    search_calls (calls st') =
      search_calls (calls st) ++ [search_args (with_content_type p ct)] ∧
    (length (video_detail_calls (calls st')) ≤
     length (video_detail_calls (calls st)) + 1)%nat ∧
    (∀ ct0, search_fails_for yt ct0 →
            results_of ct0 results = [] → results_of ct0 results' = [])).
  { unfold try_except. unfold bind at 1.
    rewrite (search_content_run _ yt _ _ Hyt).
    destruct (search_list yt (search_args (with_content_type p ct)) (world st)).1
      as [e|raw_results] eqn:Hr.
    - cbv [ret]. eexists _, _. split; [done|]. simpl.
      rewrite search_calls_app, video_detail_calls_app, app_nil_r.
      split_and!; [done | lia | done].
    - unfold bind.
      destruct (process_results_run self yt raw_results ct p
                  {| world := (search_list yt (search_args (with_content_type p ct))
                                           (world st)).2;
                     calls := calls st ++
                       [SearchList (search_args (with_content_type p ct))] |} Hyt)
        as (infos & st' & -> & Hs & Hv).
      cbv [ret]. eexists _, _. split; [done|]. rewrite Hs. simpl in *.
      rewrite search_calls_app. rewrite video_detail_calls_app, app_nil_r in Hv.
      split_and!; [done | done |].
      intros ct0 Hall Hempty. rewrite results_of_store.
      case_decide as Heq; [subst ct0|done].
      destruct (Hall (search_args (with_content_type p ct)) (world st) eq_refl)
        as [e He]. congruence. }
  unfold search_content_type, fan_out.
  destruct (sp_category_id p) as [[s|[|c cats]]|]; try exact Hsingle.
  unfold bind.
  destruct (search_categories_run self yt p ct (c :: cats) [] st Hyt)
    as (all & st' & -> & Hs & Hv & Hfail).
  cbv [ret]. eexists _, _. split; [done|]. rewrite length_map.
  split_and!; [done | done |].
  intros ct0 Hall Hempty. rewrite results_of_store.
  case_decide as Heq; [subst ct0|done].
  by rewrite (Hfail Hall).
Qed.

Lemma search_content_types_run self (yt : Service W) (p : SearchParams)
    (cts : list ContentType) (results : ResultSet) st :
  youtube (api_client self) = Some yt →
  ∃ results' st',
    for_acc cts (search_content_type self p) results st = (inr results', st') ∧
    search_calls (calls st') = search_calls (calls st) ++ flat_map (fan_out p) cts ∧
    (length (video_detail_calls (calls st')) ≤
     length (video_detail_calls (calls st)) + length (flat_map (fan_out p) cts))%nat ∧
    (∀ ct0, search_fails_for yt ct0 →
            results_of ct0 results = [] → results_of ct0 results' = []).
Proof.
  intros Hyt. revert results st.
  induction cts as [|ct cts IH]; intros results st; simpl.
  - eexists _, _. split; [done|]. rewrite app_nil_r. split_and!; [done | lia | done].
  - unfold bind at 1.
    destruct (search_content_type_run self yt p ct results st Hyt)
      as (r1 & st1 & -> & Hs1 & Hv1 & Hfail1).
    destruct (IH r1 st1) as (r2 & st2 & -> & Hs2 & Hv2 & Hfail2).
    eexists _, _. split; [done|]. rewrite Hs2, Hs1, <-app_assoc, length_app.
    split_and!; [done | lia | by auto].
Qed.

(** [search] on a ready client. *)
Lemma search_run self (yt : Service W) (p : SearchParams) st :
  youtube (api_client self) = Some yt →
  ∃ results st',
    search self p st = (inr results, st') ∧
    search_calls (calls st') =
      search_calls (calls st) ++
      flat_map (fan_out p) (default [video] (sp_content_types p)) ∧
    (length (video_detail_calls (calls st')) ≤
     length (video_detail_calls (calls st)) +
     length (flat_map (fan_out p) (default [video] (sp_content_types p))))%nat ∧
    (∀ ct, search_fails_for yt ct → results_of ct results = []).
Proof.
  intros Hyt. unfold search, YouTubeSearchService.is_ready, YouTubeAPIClient.is_ready.
  rewrite Hyt. cbn [Py.present negb].
  destruct (search_content_types_run self yt p
              (default [video] (sp_content_types p)) no_results st Hyt)
    as (results & st' & Hrun & Hs & Hv & Hfail).
  exists results, st'. split_and!; [exact Hrun | done | done |].
  intros ct Hall. apply Hfail; [done | by destruct ct].
Qed.


(** C3, as the code has it.  With a non-empty category list the fan-out is
    the same for every content type: for channels and playlists as for
    videos, one [search.list] request is sent per category, of the type of
    the content and with that category as [videoCategoryId]. *)
Theorem categories_fan_out_for_every_kind self (yt : Service W)
    (p : SearchParams) (c : string) (cats : list string) st :
  youtube (api_client self) = Some yt →
  sp_category_id p = Some (CatList (c :: cats)) →
  (∃ results st',
     search self p st = (inr results, st') ∧
     search_calls (calls st') =
       search_calls (calls st) ++
       flat_map (λ ct, map (unit_args p ct) (c :: cats))
                (default [video] (sp_content_types p))) ∧
  (∀ ct c', a_type (unit_args p ct c') = ct ∧
            a_videoCategoryId (unit_args p ct c') = Some (CatStr c')).
Proof.
  intros Hyt Hcat. split; [|done].
  destruct (search_run self yt p st Hyt) as (results & st' & Hrun & Hs & _).
  exists results, st'. split; [done|]. rewrite Hs. f_equal.
  apply flat_map_ext. intros ct. unfold fan_out. by rewrite Hcat.
Qed.

(** C7. When the client is not ready, [search] raises its exception at
    once: the state, and with it the trace of remote requests, is the one
    it started from. *)
Theorem search_not_ready self (p : SearchParams) st :
  YouTubeSearchService.is_ready self = false →
  search self p st = (inl (Exception "YouTube API not initialized"), st).
Proof. intros Hready. unfold search. by rewrite Hready. Qed.

End Calls.



Lemma categories_fan_out_for_every_kind_witness :
  let yt := service_by_category [("10", [])] in
  let p := sample_params [channel; playlist] (Some (CatList ["10"; "20"])) 10 None "any" in
  YouTubeAPIClient.youtube (YouTubeSearchService.api_client (ready_service yt)) = Some yt ∧
  sp_category_id p = Some (CatList ["10"; "20"]) ∧
  ∃ results st',
    YouTubeSearchService.search (ready_service yt) p fresh = (inr results, st') ∧
    search_calls (calls st') =
      [unit_args p channel "10"; unit_args p channel "20";
       unit_args p playlist "10"; unit_args p playlist "20"].
Proof.
  split_and!; [reflexivity | reflexivity |].
  exact (proj1 (categories_fan_out_for_every_kind
                  (ready_service (service_by_category [("10", [])]))
                  (service_by_category [("10", [])])
                  (sample_params [channel; playlist] (Some (CatList ["10"; "20"]))
                                 10 None "any")
                  "10" ["20"] fresh eq_refl eq_refl)).
Defined.

(** C3, as stated, fails: a channel search with a category sends that
    category to the remote service. *)
Lemma category_sent_for_channels :
  let yt := service_by_category [("10", [])] in
  let p := sample_params [channel] (Some (CatList ["10"])) 10 None "any" in
  map (λ args, (a_type args, a_videoCategoryId args))
      (search_calls (calls (YouTubeSearchService.search (ready_service yt) p fresh).2))
  = [(channel, Some (CatStr "10"))].
Proof. vm_compute. reflexivity. Qed.

Lemma search_not_ready_witness :
  YouTubeSearchService.is_ready unready_service = false ∧
  YouTubeSearchService.search unready_service
    (sample_params [video; channel] (Some (CatList ["10"])) 10 None "any") fresh =
  (inl (Exception "YouTube API not initialized"), fresh).
Proof.
  split; [reflexivity|].
  exact (search_not_ready unready_service
           (sample_params [video; channel] (Some (CatList ["10"])) 10 None "any")
           fresh eq_refl).
Defined.

(** ** Removing duplicates and limiting the results *)

Section Dedup.
Import YouTubeSearchService.

(** With respect to the key it computes, the loop does remove duplicates
    and respects a limit of at least one. *)
Lemma dedup_loop_keys_distinct (max_results : Z) (all : list Info)
    (seen_ids : gset (option pyval)) (unique_results : list Info) :
  (∀ k, k ∈ map result_id unique_results → k ∈ seen_ids) →
  NoDup (map result_id unique_results) →
  NoDup (map result_id (dedup_loop max_results all seen_ids unique_results)).
Proof.
  revert seen_ids unique_results.
  induction all as [|result rest IH]; intros seen unique Hseen Hnd; simpl; [done|].
  case_bool_decide as Hin; [|by apply IH].
  assert (Hnd' : NoDup (map result_id (unique ++ [result]))).
  { rewrite map_app. apply NoDup_app. split_and!; [done | | apply NoDup_singleton].
    intros k Hk ->%list_elem_of_singleton. by apply Hin, Hseen. }
  destruct (Z.of_nat (length (unique ++ [result])) >=? max_results)%Z; [done|].
  apply IH; [|done]. intros k. rewrite map_app, elem_of_app.
  intros [Hk| ->%list_elem_of_singleton].
  - apply elem_of_union_l. by apply Hseen.
  - apply elem_of_union_r. by apply elem_of_singleton.
Qed.

Lemma dedup_loop_length (max_results : Z) (all : list Info)
    (seen_ids : gset (option pyval)) (unique_results : list Info) :
  (Z.of_nat (length unique_results) < max_results)%Z →
  (Z.of_nat (length (dedup_loop max_results all seen_ids unique_results))
   ≤ max_results)%Z.
Proof.
  revert seen_ids unique_results.
  induction all as [|result rest IH]; intros seen unique Hlt; simpl; [lia|].
  case_bool_decide; [|by apply IH].
  destruct (Z.geb_spec (Z.of_nat (length (unique ++ [result]))) max_results) as [Hge|Hlt'].
  - rewrite length_app in *. simpl in *. lia.
  - by apply IH.
Qed.

(** The key of a formatted video is the id of its channel, and a formatted
    channel has no key at all. *)
Lemma result_id_of_video (item : RawHit) (od : option DetailRecord) (info : Info) :
  YouTubeDataFormatter.format_video_info item od = inr info →
  result_id info =
    let channel_id := default "" (sn_channelId (default no_snippet (hit_snippet item))) in
    if Py.str_truthy channel_id then Some (PStr channel_id) else None.
Proof.
  intros Hf.
  destruct (Py.str_truthy (snippet_category item)) eqn:Hcat.
  { by rewrite format_video_info_raises in Hf. }
  destruct (format_video_info_returns item od Hcat) as (info' & Hf' & Hk).
  assert (info' = info) as -> by congruence.
  destruct Hk as [_ Hch Hv Hp _ _].
  unfold result_id. rewrite Hv, Hch, Hp. simpl.
  by destruct (Py.str_truthy _).
Qed.

Lemma result_id_of_channel (item : RawHit) (od : option DetailRecord) :
  result_id (YouTubeDataFormatter.format_channel_info item od) = None.
Proof.
  unfold result_id, YouTubeDataFormatter.format_channel_info.
  destruct od as [details|]; [destruct (detail_truthy details)|];
    cbn [negb]; by lookup_simpl.
Qed.

(** C1: the code removes duplicates by another key than the id of the
    result; for a video it is the id of the channel that published it (see
    [result_id_of_video]).  So the same video reported under two channel
    ids is kept twice, and of three hits, the first for one video and the
    other two for a second video of the same channel, only the first
    survives: the first occurrence of the second video is dropped. *)
Theorem duplicates_removed_by_channel_id :
  (let yt := service_by_category
               [("10", [sample_hit "X1" "UCa"]); ("20", [sample_hit "X1" "UCb"])] in
   let p := sample_params [video] (Some (CatList ["10"; "20"])) 10 None "any" in
   sum_map id (λ r, ids (videos r)) (search (ready_service yt) p fresh).1 =
   inr [Some (PStr "X1"); Some (PStr "X1")]) ∧
  (let yt := service_by_category
               [("10", [sample_hit "V1" "UC1"]); ("20", [sample_hit "V2" "UC1"]);
                ("30", [sample_hit "V2" "UC1"])] in
   let p := sample_params [video] (Some (CatList ["10"; "20"; "30"])) 10 None "any" in
   sum_map id (λ r, ids (videos r)) (search (ready_service yt) p fresh).1 =
   inr [Some (PStr "V1")]).
Proof. split; vm_compute; reflexivity. Qed.

(** C5: two categories return one video each, both of the same channel,
    and ten results are asked for.  The merged stream holds two results
    with different ids, yet [search] returns one. *)
Theorem cap_counts_channels_not_videos :
  let yt := service_by_category
              [("10", [sample_hit "V1" "UC1"]); ("20", [sample_hit "V2" "UC1"])] in
  let p := sample_params [video] (Some (CatList ["10"; "20"])) 10 None "any" in
  sum_map id ids
    (for_acc ["10"; "20"] (search_category (ready_service yt) p video) [] fresh).1
    = inr [Some (PStr "V1"); Some (PStr "V2")] ∧
  sum_map id (λ r, ids (videos r)) (search (ready_service yt) p fresh).1
    = inr [Some (PStr "V1")].
Proof. split; vm_compute; reflexivity. Qed.

(** Two scenarios in which the defect does not show, every video having a
    channel of its own: with three categories of which the third fails, the
    results of the first two come back; and of five categories with two
    videos each, the first three videos come back when three are asked
    for. *)
Example third_category_fails :
  let yt := service_by_category
              [("1", [sample_hit "V1" "UC1"; sample_hit "V2" "UC2"]);
               ("2", [sample_hit "V2" "UC2"; sample_hit "V3" "UC3"])] in
  let p := sample_params [video] (Some (CatList ["1"; "2"; "3"])) 10 None "any" in
  sum_map id (λ r, ids (videos r)) (search (ready_service yt) p fresh).1
  = inr [Some (PStr "V1"); Some (PStr "V2"); Some (PStr "V3")].
Proof. vm_compute. reflexivity. Qed.

Example three_of_ten :
  let yt := service_by_category
              [("1", [sample_hit "A1" "UCa1"; sample_hit "A2" "UCa2"]);
               ("2", [sample_hit "B1" "UCb1"; sample_hit "B2" "UCb2"]);
               ("3", [sample_hit "C1" "UCc1"; sample_hit "C2" "UCc2"]);
               ("4", [sample_hit "D1" "UCd1"; sample_hit "D2" "UCd2"]);
               ("5", [sample_hit "E1" "UCe1"; sample_hit "E2" "UCe2"])] in
  let p := sample_params [video] (Some (CatList ["1"; "2"; "3"; "4"; "5"])) 3 None "any" in
  sum_map id (λ r, ids (videos r)) (search (ready_service yt) p fresh).1
  = inr [Some (PStr "A1"); Some (PStr "A2"); Some (PStr "B1")].
Proof. vm_compute. reflexivity. Qed.

End Dedup.

(** ** More on removing duplicates *)

Section DedupLoop.
Import YouTubeSearchService.

Lemma dedup_loop_first_by_key (max_results : Z) (all : list Info)
    (seen_ids : gset (option pyval)) (unique_results : list Info) :
  dedup_loop max_results all seen_ids unique_results =
  unique_results ++
  take (Z.to_nat (Z.max 1 (max_results - Z.of_nat (length unique_results))))
       (first_by_key all seen_ids).
Proof.
  revert seen_ids unique_results.
  induction all as [|result rest IH]; intros seen unique; simpl.
  - by rewrite take_nil, app_nil_r.
  - destruct (decide (result_id result ∈ seen)) as [Hin|Hin].
    { rewrite (bool_decide_eq_false_2 (result_id result ∉ seen)) by (by intros []).
      rewrite bool_decide_eq_true_2 by done. apply IH. }
    rewrite (bool_decide_eq_true_2 (result_id result ∉ seen)) by done.
    rewrite bool_decide_eq_false_2 by done.
    destruct (Z.geb_spec (Z.of_nat (length (unique ++ [result]))) max_results)
      as [Hge|Hlt]; rewrite length_app in *; simpl in *.
    + replace (Z.to_nat (Z.max 1 (max_results - Z.of_nat (length unique))))
          with 1%nat by lia.
      simpl. by rewrite take_0.
    + rewrite IH, length_app. simpl.
        replace (Z.to_nat (Z.max 1 (max_results - Z.of_nat (length unique))))
          with (S (Z.to_nat (Z.max 1 (max_results
                                      - Z.of_nat (length unique + 1))))) by lia.
        simpl. by rewrite <-app_assoc.
Qed.

(** The loop of [search] that removes duplicates returns the first
    [max_results] of the results that are the first to carry their key,
    where a limit below one counts as one. *)
Theorem dedup_loop_takes_first_by_key (max_results : Z) (all : list Info) :
  dedup_loop max_results all ∅ [] =
    take (Z.to_nat (Z.max 1 max_results)) (first_by_key all ∅).
Proof. rewrite dedup_loop_first_by_key. simpl. by rewrite Z.sub_0_r. Qed.

(** No two results that the loop keeps have the same key. *)
Theorem dedup_loop_output_keys_distinct (max_results : Z) (all : list Info) :
  NoDup (map result_id (dedup_loop max_results all ∅ [])).
Proof. apply dedup_loop_keys_distinct; [set_solver | constructor]. Qed.

(** The length test comes after the append: with a limit of zero or less,
    results that are not empty still give one result. *)
Theorem dedup_loop_limit_below_one (max_results : Z) (all : list Info) :
  all ≠ [] → (max_results ≤ 0)%Z →
  dedup_loop max_results all ∅ [] = take 1 all.
Proof.
  intros Hne Hmax. rewrite dedup_loop_first_by_key.
  replace (Z.to_nat (Z.max 1 (max_results - Z.of_nat (length (@nil Info)))))
    with 1%nat by (simpl; lia).
  destruct all as [|result rest]; [done|]. simpl.
  rewrite bool_decide_eq_false_2 by set_solver. simpl. by rewrite ?take_0.
Qed.

Lemma dedup_loop_limit_below_one_witness :
  let all : list Info := [ {[ "id" := PStr "c1" ]}; {[ "id" := PStr "c2" ]} ] in
  all ≠ [] ∧ (0 ≤ 0)%Z ∧
  dedup_loop 0 all ∅ [] = [ {[ "id" := PStr "c1" ]} ].
Proof.
  split_and!; [discriminate | lia |].
  exact (dedup_loop_limit_below_one 0
           [ {[ "id" := PStr "c1" ]}; {[ "id" := PStr "c2" ]} ]
           ltac:(discriminate) ltac:(lia)).
Defined.

End DedupLoop.

(** ** Failing fan-out units *)

Section FailureTolerance.
Context {W : Type}.
Implicit Types (self : YouTubeSearchService.t W) (st : St W).
Import YouTubeAPIClient YouTubeSearchService.

Lemma search_categories_units self (yt : Service W) (p : SearchParams)
    (ct : ContentType) (cats : list string) (acc : list Info) st :
  youtube (api_client self) = Some yt →
  for_acc cats (search_category self p ct) acc st =
    (inr (acc ++ (succeeded_units self yt p ct cats st).1),
     (succeeded_units self yt p ct cats st).2).
Proof.
  intros Hyt. revert acc st.
  induction cats as [|c cats IH]; intros acc st; simpl.
  - by rewrite app_nil_r.
  - unfold bind at 1, search_category at 1, try_except. unfold bind at 1.
    rewrite (search_content_run _ yt _ _ Hyt). fold (unit_args p ct c).
    destruct (search_list yt (unit_args p ct c) (world st)).1 as [e|raw_results] eqn:Hr.
    + cbv [ret]. apply IH.
    + unfold bind at 1.
      destruct (process_results_run self yt raw_results ct p
                  {| world := (search_list yt (unit_args p ct c) (world st)).2;
                     calls := calls st ++ [SearchList (unit_args p ct c)] |} Hyt)
        as (infos & st1 & Hproc & _).
      rewrite Hproc. cbv [ret]. simpl. rewrite IH. by rewrite app_assoc.
Qed.

Lemma search_content_type_units self (yt : Service W) (p : SearchParams)
    (ct : ContentType) (c : string) (cats : list string) (results : ResultSet) st :
  youtube (api_client self) = Some yt →
  sp_category_id p = Some (CatList (c :: cats)) →
  search_content_type self p ct results st =
    (inr (store results ct
            (kept_of_stream p (succeeded_units self yt p ct (c :: cats) st).1)),
     (succeeded_units self yt p ct (c :: cats) st).2).
Proof.
  intros Hyt Hcat. unfold search_content_type. rewrite Hcat. unfold bind.
  rewrite (search_categories_units self yt p ct (c :: cats) [] st Hyt).
  cbv [ret]. rewrite dedup_loop_first_by_key. unfold kept_of_stream.
  rewrite app_nil_l. cbn [length]. by rewrite Z.sub_0_r.
Qed.

Lemma search_content_types_units self (yt : Service W) (p : SearchParams)
    (c : string) (cats : list string) (cts : list ContentType)
    (results : ResultSet) st :
  youtube (api_client self) = Some yt →
  sp_category_id p = Some (CatList (c :: cats)) →
  for_acc cts (search_content_type self p) results st =
    (inr (searched_types self yt p (c :: cats) cts results st).1,
     (searched_types self yt p (c :: cats) cts results st).2).
Proof.
  intros Hyt Hcat. revert results st.
  induction cts as [|ct cts IH]; intros results st; [done|].
  cbn [for_acc searched_types]. unfold bind at 1.
  rewrite (search_content_type_units self yt p ct c cats results st Hyt Hcat).
  apply IH.
Qed.

(** C6, as the code has it.  On a ready client [search] raises nothing,
    whatever the remote service answers: it returns a result set after
    sending the request of every fan-out unit of every content type, and
    the list of a content type whose requests all fail is empty.  Over a
    list of categories, the list of a content type is made of the results
    of the units that succeeded, a failed unit adding nothing and stopping
    nothing; of these results the loop keeps the first to carry their key,
    up to the limit. *)
Theorem partial_failure_tolerated self (yt : Service W) (p : SearchParams) st :
  youtube (api_client self) = Some yt →
  (∃ results st',
     search self p st = (inr results, st') ∧
     search_calls (calls st') =
       search_calls (calls st) ++
       flat_map (fan_out p) (default [video] (sp_content_types p)) ∧
     (∀ ct, search_fails_for yt ct → results_of ct results = [])) ∧
  (∀ c cats,
     sp_category_id p = Some (CatList (c :: cats)) →
     search self p st =
       (inr (searched_types self yt p (c :: cats)
               (default [video] (sp_content_types p)) no_results st).1,
        (searched_types self yt p (c :: cats)
               (default [video] (sp_content_types p)) no_results st).2)) ∧
  (∀ ct c cats,
     sp_category_id p = Some (CatList (c :: cats)) →
     sp_content_types p = Some [ct] →
     ∃ results st',
       search self p st = (inr results, st') ∧
       results_of ct results =
         kept_of_stream p (succeeded_units self yt p ct (c :: cats) st).1).
Proof.
  intros Hyt.
  assert (Hlist : ∀ c cats,
    sp_category_id p = Some (CatList (c :: cats)) →
    search self p st =
      (inr (searched_types self yt p (c :: cats)
              (default [video] (sp_content_types p)) no_results st).1,
       (searched_types self yt p (c :: cats)
              (default [video] (sp_content_types p)) no_results st).2)).
  { intros c cats Hcat.
    unfold search, YouTubeSearchService.is_ready, YouTubeAPIClient.is_ready.
    rewrite Hyt. cbn [Py.present negb].
    exact (search_content_types_units self yt p c cats _ no_results st Hyt Hcat). }
  split_and!.
  - destruct (search_run self yt p st Hyt) as (results & st' & Hrun & Hs & _ & Hfail).
    by exists results, st'.
  - exact Hlist.
  - intros ct c cats Hcat Hcts. rewrite (Hlist c cats Hcat), Hcts.
    eexists _, _. split; [reflexivity|]. cbn [default searched_types fst].
    by destruct ct.
Qed.

End FailureTolerance.

Lemma partial_failure_tolerated_witness :
  let yt := service_by_category
              [("1", [sample_hit "V1" "UC1"]); ("2", [sample_hit "V2" "UC2"])] in
  let p := sample_params [video] (Some (CatList ["1"; "2"; "3"])) 10 None "any" in
  YouTubeAPIClient.youtube (YouTubeSearchService.api_client (ready_service yt)) = Some yt ∧
  ∃ results st',
    YouTubeSearchService.search (ready_service yt) p fresh = (inr results, st') ∧
    search_calls (calls st') =
      [unit_args p video "1"; unit_args p video "2"; unit_args p video "3"] ∧
    ids (videos results) = [Some (PStr "V1"); Some (PStr "V2")].
Proof.
  intros yt p. split; [reflexivity|].
  pose proof (partial_failure_tolerated (ready_service yt) yt p fresh eq_refl)
    as (Hreturns & Hlist & _).
  destruct Hreturns as (results & st' & Hrun & Hs & _).
  exists results, st'. split_and!; [exact Hrun | exact Hs |].
  rewrite (Hlist "1" ["2"; "3"] eq_refl) in Hrun.
  injection Hrun as <- _. vm_compute. reflexivity.
Defined.

(** C6, as stated, fails.  The third category fails and the first two
    succeed, with one video each, both of the same channel: the merged
    stream of the units that succeeded holds the two videos, and [search]
    returns the first only, the second being taken for a duplicate. *)
Lemma succeeded_category_result_lost :
  let yt := service_by_category
              [("10", [sample_hit "V1" "UC1"]); ("20", [sample_hit "V2" "UC1"])] in
  let p := sample_params [video] (Some (CatList ["10"; "20"; "30"])) 10 None "any" in
  ids (succeeded_units (ready_service yt) yt p video ["10"; "20"; "30"] fresh).1
    = [Some (PStr "V1"); Some (PStr "V2")] ∧
  search_calls (calls (YouTubeSearchService.search (ready_service yt) p fresh).2)
    = [unit_args p video "10"; unit_args p video "20"; unit_args p video "30"] ∧
  sum_map id (λ r, ids (videos r)) (YouTubeSearchService.search (ready_service yt) p fresh).1
    = inr [Some (PStr "V1")].
Proof. vm_compute. split_and!; reflexivity. Qed.

(** ** More on the formatter *)

Section FormatterFacts.
Import YouTubeDataFormatter.

Ltac dom_simpl :=
  cbn [list_to_map foldr uncurry fst snd list_to_set];
  rewrite ?dom_insert_L, ?dom_empty_L.

(** [format_video_info] fails exactly on the hits whose search snippet has
    a non-empty [categoryId], whatever the detail record, and the exception
    is the [AttributeError] of the missing [_get_category_name]. *)
Theorem format_video_info_fails_iff (item : RawHit) (od : option DetailRecord) :
  (Py.str_truthy (snippet_category item) = true ↔
   ∃ e, format_video_info item od = inl e) ∧
  (∀ e, format_video_info item od = inl e →
        e = AttributeError
          "type object 'YouTubeDataFormatter' has no attribute '_get_category_name'").
Proof.
  destruct (Py.str_truthy (snippet_category item)) eqn:Hcat.
  - rewrite (format_video_info_raises item od Hcat). split.
    + split; [by eauto | done].
    + by intros e [= <-].
  - destruct (format_video_info_returns item od Hcat) as (info & -> & _). split.
    + split; [done | by intros [e ?]].
    + by intros e.
Qed.

(** To show that the videos the formatter returns have a property, it is
    enough to exhibit, for a hit without snippet category, a result that
    has it. *)
Lemma format_video_info_inr (item : RawHit) (od : option DetailRecord)
    (info : Info) (P : Info → Prop) :
  (Py.str_truthy (default "" (sn_categoryId (default no_snippet (hit_snippet item))))
     = false →
   ∃ info', format_video_info item od = inr info' ∧ P info') →
  format_video_info item od = inr info → P info.
Proof.
  intros Hex Hf.
  destruct (Py.str_truthy (snippet_category item)) eqn:Hcat.
  { by rewrite format_video_info_raises in Hf. }
  destruct (Hex Hcat) as (info' & Hf' & HP).
  by assert (info' = info) as -> by congruence.
Qed.

(** What a detail record says about topics and about the name of the
    category never reaches the result: every video the formatter returns
    has empty topic lists, an empty category name and no inferred topic;
    its category id is the one of the detail record, or empty. *)
Theorem format_video_info_loses_annotations (item : RawHit)
    (od : option DetailRecord) (info : Info) :
  format_video_info item od = inr info →
  info !! "topic_ids" = Some (PList []) ∧
  info !! "topic_categories" = Some (PList []) ∧
  info !! "topic_categories_formatted" = Some (PList []) ∧
  info !! "relevant_topic_names" = Some (PList []) ∧
  info !! "inferred_topics" = Some (PList []) ∧
  info !! "category_name" = Some (PStr "") ∧
  info !! "category_id" =
    Some (PStr (match od with
                | Some details =>
                    if detail_truthy details
                    then default "" (ds_categoryId
                                       (default no_detail_snippet (d_snippet details)))
                    else ""
                | None => ""
                end)).
Proof.
  intros Hf. pattern info. eapply format_video_info_inr; [|exact Hf].
  clear Hf. intros Hcat.
  unfold format_video_info, format_video_info_body.
  rewrite Hcat. run_monad.
  destruct od as [details|]; [destruct (detail_truthy details) eqn:Ht|].
  - cbn [negb]. unfold get_truthy. lookup_simpl.
    cbn [Py.truthy Py.str_truthy String.eqb negb].
    destruct (default "" (ds_categoryId _)) as [|c s] eqn:Hd;
      cbn [Py.str_truthy String.eqb negb];
      (eexists; split; [reflexivity|]); split_and!; by lookup_simpl.
  - cbn [negb]. eexists; split; [reflexivity|]. split_and!; by lookup_simpl.
  - eexists; split; [reflexivity|]. split_and!; by lookup_simpl.
Qed.

Lemma format_video_info_loses_annotations_witness :
  let item := sample_hit "X1" "UC1" in
  let details :=
    {| d_id := Some "X1"; d_snippet := Some {| ds_categoryId := Some "10" |};
       d_contentDetails := None; d_statistics := None; d_status := None;
       d_topicDetails := Some {| td_relevantTopicIds := Some ["/m/04rlf"];
                                 td_topicCategories := None |};
       d_brandingSettings := None |} in
  ∃ info, format_video_info item (Some details) = inr info ∧
          info !! "topic_ids" = Some (PList []) ∧
          info !! "category_id" = Some (PStr "10").
Proof.
  intros item details.
  destruct (format_video_info_returns item (Some details) eq_refl) as (info & Hf & _).
  exists info. split; [exact Hf|].
  pose proof (format_video_info_loses_annotations item (Some details) info Hf)
    as (H1 & _ & _ & _ & _ & _ & H7).
  split; [exact H1 | exact H7].
Defined.

(** In each of the three formatters the address is derived from the type
    and the id of the result, and is empty when the id is. *)
Theorem formatters_derive_url_from_id (item : RawHit) (od : option DetailRecord) :
  (∀ info, format_video_info item od = inr info → url_from_id info) ∧
  url_from_id (format_channel_info item od) ∧
  url_from_id (format_playlist_info item od).
Proof.
  split_and!.
  - intros info Hf. pattern info. eapply format_video_info_inr; [|exact Hf].
    clear Hf. intros Hcat.
    unfold format_video_info, format_video_info_body.
    rewrite Hcat. run_monad.
    destruct od as [details|]; [destruct (detail_truthy details) eqn:Ht|].
    + cbn [negb]. unfold get_truthy. lookup_simpl.
      cbn [Py.truthy Py.str_truthy String.eqb negb].
      destruct (Py.str_truthy (default "" (ds_categoryId _)));
        (eexists; split; [reflexivity|]);
        eexists "video", _; split_and!; by lookup_simpl.
    + cbn [negb]. eexists; split; [reflexivity|].
      eexists "video", _. split_and!; by lookup_simpl.
    + eexists; split; [reflexivity|].
      eexists "video", _. split_and!; by lookup_simpl.
  - unfold format_channel_info.
    destruct od as [details|]; [destruct (detail_truthy details)|]; cbn [negb];
      eexists "channel", _; split_and!; by lookup_simpl.
  - unfold format_playlist_info.
    destruct od as [details|]; [destruct (detail_truthy details)|]; cbn [negb];
      eexists "playlist", _; split_and!; by lookup_simpl.
Qed.

(** The keys of a formatted channel and of a formatted playlist are those
    of the search hit, and those of the detail record exactly when one is
    given that is not empty. *)
Theorem channel_and_playlist_keys (item : RawHit) (od : option DetailRecord) :
  dom (format_channel_info item od) =
    (if has_details od then channel_keys ∪ channel_detail_keys else channel_keys) ∧
  dom (format_playlist_info item od) =
    (if has_details od then playlist_keys ∪ playlist_detail_keys else playlist_keys).
Proof.
  unfold format_channel_info, format_playlist_info, has_details.
  destruct od as [details|]; [destruct (detail_truthy details)|]; cbn [negb];
    (split; dom_simpl; set_solver).
Qed.

(** The keys of a formatted video: sixteen that every result has, and the
    seven of the detail record exactly when one is given that is not
    empty. *)
Theorem video_keys_by_details (item : RawHit) (od : option DetailRecord) (info : Info) :
  format_video_info item od = inr info →
  dom info =
    (if has_details od then video_keys_always ∪ video_detail_keys
     else video_keys_always).
Proof.
  intros Hf. pattern info. eapply format_video_info_inr; [|exact Hf].
  clear Hf. intros Hcat.
  unfold format_video_info, format_video_info_body, has_details.
  rewrite Hcat. run_monad.
  destruct od as [details|]; [destruct (detail_truthy details) eqn:Ht|].
  - cbn [negb]. unfold get_truthy. lookup_simpl.
    cbn [Py.truthy Py.str_truthy String.eqb negb].
    destruct (Py.str_truthy (default "" (ds_categoryId _)));
      (eexists; split; [reflexivity|]); dom_simpl; set_solver.
  - cbn [negb]. eexists; split; [reflexivity|]. dom_simpl; set_solver.
  - eexists; split; [reflexivity|]. dom_simpl; set_solver.
Qed.

Lemma video_keys_by_details_witness :
  ∃ info,
    format_video_info (sample_hit "X1" "UC1") None = inr info ∧
    dom info = video_keys_always.
Proof.
  destruct (format_video_info_returns (sample_hit "X1" "UC1") None eq_refl)
    as (info & Hf & _).
  exists info. split; [exact Hf|].
  exact (video_keys_by_details (sample_hit "X1" "UC1") None info Hf).
Defined.

End FormatterFacts.

(** ** Durations that are not tokens *)

Section DurationFacts.
Import Token YouTubeDataFormatter.
Local Arguments String.append !_ _ / : simpl nomatch.
Local Arguments Ascii.eqb : simpl never.

Lemma str_length_app (a b : string) :
  String.length (a +:+ b) = (String.length a + String.length b)%nat.
Proof. induction a as [|x a IH]; simpl; [done | by rewrite IH]. Qed.

Lemma replace_from_keeps (p : ascii → bool) (old : string) (skip : nat) (s : string) :
  all_chars p s = true → all_chars p (Py.replace_from old "" skip s) = true.
Proof.
  revert skip. induction s as [|x s IH]; intros skip; simpl; [done|].
  intros [Hx Hs]%andb_prop. destruct skip as [|k]; [|by apply IH].
  destruct (Py.startswith old (String x s)); simpl; [by apply IH|].
  rewrite Hx. simpl. by apply IH.
Qed.

(** Any duration that is not empty is formatted as a time of at least
    five characters, whatever it looks like; one without the letters H, M
    and S, as the period of one day is, gives "00:00". *)
Theorem parse_duration_any_input (duration_string : string) :
  duration_string ≠ "" →
  (5 ≤ String.length (_parse_duration duration_string))%nat ∧
  (lacks "H" duration_string = true → lacks "M" duration_string = true →
   lacks "S" duration_string = true → _parse_duration duration_string = "00:00").
Proof.
  intros Hd. rewrite parse_duration_unfold by done. cbv zeta. split.
  - pose proof (format_02d_width (extract "H" (Py.replace "PT" "" duration_string))).
    pose proof (format_02d_width (extract "M" (Py.replace "PT" "" duration_string))).
    pose proof (format_02d_width (extract "S" (Py.replace "PT" "" duration_string))).
    destruct (0 <? extract "H" _)%N; rewrite !str_length_app; simpl; lia.
  - unfold lacks, extract, Py.replace. intros HH HM HS.
    rewrite !contains_char_absent by by apply replace_from_keeps.
    done.
Qed.

End DurationFacts.

Lemma parse_duration_any_input_witness :
  "P1D" ≠ "" ∧ lacks "H" "P1D" = true ∧ lacks "M" "P1D" = true ∧
  lacks "S" "P1D" = true ∧
  YouTubeDataFormatter._parse_duration "P1D" = "00:00".
Proof.
  assert (Hd : "P1D" ≠ "") by discriminate.
  split_and!; [exact Hd | reflexivity | reflexivity | reflexivity |].
  exact (proj2 (parse_duration_any_input "P1D" Hd) eq_refl eq_refl eq_refl).
Defined.

(** ** The filter manager *)

Section FilterManagerFacts.
Import FilterManager.

(** Two lookup tables with their defaults give the same answer exactly on
    a list of keys, once this is checked on the keys either table has. *)
Lemma tables_agree (t1 t2 : gmap string string) (d1 : string) (d2 : string → string)
    (known agreeing : list string) :
  dom t1 ∪ dom t2 ⊆ list_to_set known →
  forallb (λ k, bool_decide
                  (bool_decide (default d1 (t1 !! k) = default (d2 k) (t2 !! k)) =
                   bool_decide (k ∈ agreeing))) known = true →
  forallb (λ k, bool_decide (k ∈ known)) agreeing = true →
  (∀ id, d1 ≠ d2 id) →
  ∀ id, default d1 (t1 !! id) = default (d2 id) (t2 !! id) ↔ id ∈ agreeing.
Proof.
  intros Hdom Hknown Hagree Hdefault id.
  rewrite forallb_forall in Hknown, Hagree.
  destruct (decide (id ∈ known)) as [Hin|Hout].
  - apply list_elem_of_In, Hknown, bool_decide_eq_true in Hin.
    split; intros H.
    + apply (bool_decide_eq_true_2 _) in H. rewrite Hin in H.
      by apply bool_decide_eq_true in H.
    + apply (bool_decide_eq_true_2 _) in H. rewrite <-Hin in H.
      by apply bool_decide_eq_true in H.
  - assert (t1 !! id = None ∧ t2 !! id = None) as [-> ->].
    { split; apply not_elem_of_dom; intros Hd; apply Hout;
        apply (elem_of_list_to_set (C := gset string)), Hdom; set_solver. }
    simpl. split; [by intros ?%Hdefault|].
    intros Hin%list_elem_of_In%Hagree%bool_decide_eq_true. done.
Qed.

(** The two category tables of the filter manager name the same category
    for the ids 1 to 33 that they have, and for no other id: from 34 on the
    names of [get_category_name] and [_get_category_name] differ, as they
    do for an id that neither table has. *)
Theorem category_names_agree_iff (category_id : string) :
  get_category_name category_id = _get_category_name category_id ↔
  category_id ∈ category_ids_agreeing.
Proof.
  assert (H1 : dom CATEGORIES ∪ dom categories ⊆ list_to_set category_ids_known).
  { apply (bool_decide_unpack _). vm_compute. exact I. }
  assert (H2 : forallb (λ k, bool_decide
                 (bool_decide (default "Unknown Category" (CATEGORIES !! k) =
                               default ("Category " +:+ k) (categories !! k)) =
                  bool_decide (k ∈ category_ids_agreeing)))
                 category_ids_known = true).
  { vm_compute. reflexivity. }
  assert (H3 : forallb (λ k, bool_decide (k ∈ category_ids_known))
                 category_ids_agreeing = true).
  { vm_compute. reflexivity. }
  assert (H4 : ∀ id : string, "Unknown Category" ≠ "Category " +:+ id).
  { intros id. discriminate. }
  exact (tables_agree CATEGORIES categories "Unknown Category"
           (λ id, "Category " +:+ id) category_ids_known category_ids_agreeing
           H1 H2 H3 H4 category_id).
Qed.

(** [_format_relevant_topic_ids] and [get_topic_name] give a topic the
    same name for twelve ids only. *)
Theorem topic_names_agree_iff (topic_id : string) :
  _format_relevant_topic_ids [topic_id] = [get_topic_name topic_id] ↔
  topic_id ∈ topic_ids_agreeing.
Proof.
  assert (H1 : dom TOPICS ∪ dom topic_mapping ⊆ list_to_set topic_ids_known).
  { apply (bool_decide_unpack _). vm_compute. exact I. }
  assert (H2 : forallb (λ k, bool_decide
                 (bool_decide (default "Unknown Topic" (TOPICS !! k) =
                               default ("Topic: " +:+ k) (topic_mapping !! k)) =
                  bool_decide (k ∈ topic_ids_agreeing)))
                 topic_ids_known = true).
  { vm_compute. reflexivity. }
  assert (H3 : forallb (λ k, bool_decide (k ∈ topic_ids_known))
                 topic_ids_agreeing = true).
  { vm_compute. reflexivity. }
  assert (H4 : ∀ id : string, "Unknown Topic" ≠ "Topic: " +:+ id).
  { intros id. discriminate. }
  pose proof (tables_agree TOPICS topic_mapping "Unknown Topic"
                (λ id, "Topic: " +:+ id) topic_ids_known topic_ids_agreeing
                H1 H2 H3 H4 topic_id) as [Hto Hfrom].
  change (_format_relevant_topic_ids [topic_id])
    with [default ("Topic: " +:+ topic_id) (topic_mapping !! topic_id)].
  change (get_topic_name topic_id) with (default "Unknown Topic" (TOPICS !! topic_id)).
  split.
  - intros Heq. apply Hto. congruence.
  - intros Hin. by rewrite (Hfrom Hin).
Qed.

(** A lookup with a default that is not empty, in a table whose values
    are not empty, gives a name that is not empty. *)
Lemma default_lookup_not_empty (t : gmap string string) (d : string → string) :
  forallb (λ kv, Py.str_truthy kv.2) (map_to_list t) = true →
  (∀ id, d id ≠ "") →
  ∀ id, default (d id) (t !! id) ≠ "".
Proof.
  intros Hall Hd id. rewrite forallb_forall in Hall.
  destruct (t !! id) as [name|] eqn:Hid; [|exact (Hd id)].
  apply elem_of_map_to_list, list_elem_of_In in Hid.
  specialize (Hall _ Hid). by destruct name.
Qed.

Lemma default_lookup_cases (t : gmap string string) (d : string) (id : string) :
  match t !! id with
  | Some known => default d (t !! id) = known
  | None => default d (t !! id) = d
  end.
Proof. by destruct (t !! id). Qed.

(** [_format_relevant_topic_ids] gives one name for each id, in the order
    of the ids: the name the id has in [topic_mapping], or "Topic: "
    followed by the id when it has none there.  No name is empty. *)
Theorem relevant_topic_names_not_empty (topic_ids : list string) :
  length (_format_relevant_topic_ids topic_ids) = length topic_ids ∧
  Forall (λ name, name ≠ "") (_format_relevant_topic_ids topic_ids) ∧
  Forall2 (λ topic_id name,
             name ≠ "" ∧
             match topic_mapping !! topic_id with
             | Some known => name = known
             | None => name = "Topic: " +:+ topic_id
             end)
          topic_ids (_format_relevant_topic_ids topic_ids).
Proof.
  assert (Hall : forallb (λ kv : string * string, Py.str_truthy kv.2)
                   (map_to_list topic_mapping) = true).
  { vm_compute. reflexivity. }
  assert (Hd : ∀ id : string, "Topic: " +:+ id ≠ "").
  { intros id. discriminate. }
  pose proof (default_lookup_not_empty topic_mapping (λ id, "Topic: " +:+ id) Hall Hd)
    as Hname.
  unfold _format_relevant_topic_ids.
  destruct topic_ids as [|id ids]; [by split_and!; constructor|].
  split_and!.
  - apply length_map.
  - apply Forall_map, Forall_forall. intros x _. exact (Hname x).
  - apply Forall2_fmap_r, Forall_Forall2_diag, Forall_forall. intros x _.
    unfold compose. split; [exact (Hname x)|].
    exact (default_lookup_cases topic_mapping ("Topic: " +:+ x) x).
Qed.

End FilterManagerFacts.

(** ** The filters and the topic names of the filter manager *)

Section FilterManagerFilters.
Import FilterManager YouTubeSearchService.
Local Arguments String.append !_ _ / : simpl nomatch.
Local Arguments Ascii.eqb : simpl never.

Lemma filter_by_kids_content_loop_sublist (results : list Info) (b : bool) :
  filter_by_kids_content_loop results b `sublist_of` results.
Proof.
  induction results as [|r results IH]; simpl; [done|].
  destruct (r !! "made_for_kids") as [v|]; [destruct (Py.eq_ v (PBool b))|];
    by constructor.
Qed.

Lemma filter_by_kids_content_loop_flag (results : list Info) (b : bool) :
  Forall (λ r, ∃ v, r !! "made_for_kids" = Some v ∧ Py.eq_ v (PBool b) = true)
         (filter_by_kids_content_loop results b).
Proof.
  induction results as [|r results IH]; simpl; [done|].
  destruct (r !! "made_for_kids") as [v|] eqn:Hv; [|done].
  destruct (Py.eq_ v (PBool b)) eqn:Heq; [|done].
  constructor; [by exists v | done].
Qed.

Lemma filter_by_kids_content_loop_fixed (results : list Info) (b : bool) :
  Forall (λ r, ∃ v, r !! "made_for_kids" = Some v ∧ Py.eq_ v (PBool b) = true) results →
  filter_by_kids_content_loop results b = results.
Proof.
  induction 1 as [|r results (v & Hv & Heq) _ IH]; simpl; [done|].
  by rewrite Hv, Heq, IH.
Qed.

Lemma filter_by_kids_content_loop_complete (results : list Info) (b : bool)
    (r : Info) (v : pyval) :
  r ∈ results → r !! "made_for_kids" = Some v → Py.eq_ v (PBool b) = true →
  r ∈ filter_by_kids_content_loop results b.
Proof.
  intros Hin Hv Heq. induction results as [|r0 results IH]; [by inversion Hin|].
  simpl. apply elem_of_cons in Hin as [<-|Hin].
  - rewrite Hv, Heq. by left.
  - destruct (r0 !! "made_for_kids") as [v0|]; [destruct (Py.eq_ v0 (PBool b))|];
      [right| |]; by apply IH.
Qed.

(** [filter_by_kids_content] with no flag asked for returns its input as
    it is.  With a flag it keeps, in their order, the results that carry a
    made-for-kids flag equal to the one asked for: all of these, and
    nothing else.  Filtering twice is filtering once. *)
Theorem filter_by_kids_content_keeps (results : list Info) (made_for_kids : option bool) :
  filter_by_kids_content results made_for_kids `sublist_of` results ∧
  (∀ b, made_for_kids = Some b →
        Forall (λ r, ∃ v, r !! "made_for_kids" = Some v ∧ Py.eq_ v (PBool b) = true)
               (filter_by_kids_content results made_for_kids)) ∧
  filter_by_kids_content (filter_by_kids_content results made_for_kids) made_for_kids =
    filter_by_kids_content results made_for_kids ∧
  filter_by_kids_content results None = results ∧
  (∀ b r v, made_for_kids = Some b → r ∈ results →
            r !! "made_for_kids" = Some v → Py.eq_ v (PBool b) = true →
            r ∈ filter_by_kids_content results made_for_kids).
Proof.
  destruct made_for_kids as [b|]; simpl.
  - split_and!.
    + apply filter_by_kids_content_loop_sublist.
    + intros b' [= <-]. apply filter_by_kids_content_loop_flag.
    + apply filter_by_kids_content_loop_fixed, filter_by_kids_content_loop_flag.
    + done.
    + intros b' r v [= <-]. apply filter_by_kids_content_loop_complete.
  - by split_and!.
Qed.

(** The two kids filters differ on a result without the flag: the one of
    the filter manager drops it whichever flag is asked for, the one of
    the search service never does. *)
Theorem kids_filters_differ_without_flag (result : Info) (b : bool) (p : SearchParams) :
  result !! "made_for_kids" = None →
  filter_by_kids_content [result] (Some b) = [] ∧
  kids_filter_rejects result p = false.
Proof.
  intros Hnone. unfold kids_filter_rejects. simpl. rewrite Hnone. simpl.
  by rewrite andb_false_r.
Qed.

Lemma kids_filters_differ_without_flag_witness :
  let result : Info := {[ "id" := PStr "v1" ]} in
  let p := sample_params [video] None 10 None "yes" in
  result !! "made_for_kids" = None ∧
  filter_by_kids_content [result] (Some true) = [] ∧
  kids_filter_rejects result p = false.
Proof.
  split; [reflexivity|].
  exact (kids_filters_differ_without_flag {[ "id" := PStr "v1" ]} true
           (sample_params [video] None 10 None "yes") eq_refl).
Defined.

(** The two topic filters differ on what the formatter returns: every
    formatted video has an empty topic list, so [filter_by_topic] drops
    all of them for any topic, and the filter of the search service drops
    none. *)
Theorem filter_by_topic_drops_formatted_videos (results : list Info)
    (topic_id : string) (p : SearchParams) :
  Forall formatted_video results →
  Py.str_truthy topic_id = true →
  filter_by_topic results (Some topic_id) = inr [] ∧
  Forall (λ r, topic_filter_rejects r p = inr false) results.
Proof.
  intros Hall Ht. unfold filter_by_topic. simpl. rewrite Ht. simpl. split.
  - rewrite filter_by_topic_loop_lists.
    + f_equal. induction Hall as [|r results (item & od & Hf) _ IH]; [done|].
      simpl. destruct (topic_filter_passes_formatted item od r p Hf) as [-> _].
      simpl. exact IH.
    + eapply Forall_impl; [exact Hall|]. intros r (item & od & Hf).
      destruct (topic_filter_passes_formatted item od r p Hf) as [-> _]. by eexists.
  - eapply Forall_impl; [exact Hall|]. intros r (item & od & Hf).
    by destruct (topic_filter_passes_formatted item od r p Hf).
Qed.

Lemma split_char_not_empty (sep : ascii) (s : string) : Py.split_char sep s ≠ [].
Proof.
  destruct s as [|c s]; simpl; [done|].
  destruct (Ascii.eqb c sep); [done|]. by destruct (Py.split_char sep s).
Qed.

Lemma split_char_pieces (sep : ascii) (s : string) :
  Forall (λ piece, lacks sep piece = true) (Py.split_char sep s).
Proof.
  induction s as [|c s IH]; simpl; [by repeat constructor|].
  destruct (Ascii.eqb c sep) eqn:Hc; [by constructor|].
  destruct (Py.split_char sep s) as [|piece pieces].
  { repeat constructor. unfold lacks. simpl. by rewrite Hc. }
  inversion IH as [|? ? Hpiece Hpieces]; subst.
  constructor; [|done]. unfold lacks in *. simpl. by rewrite Hc, Hpiece.
Qed.

Lemma split_char_whole (sep : ascii) (s : string) :
  lacks sep s = true → Py.split_char sep s = [s].
Proof.
  unfold lacks. induction s as [|c s IH]; simpl; [done|].
  intros [Hc Hs]%andb_prop. apply negb_true_iff in Hc. rewrite Hc, (IH Hs). done.
Qed.

Lemma split_char_last (sep : ascii) (prefix tail : string) :
  lacks sep tail = true →
  ∃ piece pieces,
    Py.split_char sep (prefix +:+ String sep tail) = piece :: pieces ++ [tail].
Proof.
  intros Htail. induction prefix as [|c prefix (piece & pieces & IH)]; simpl.
  - rewrite Ascii.eqb_refl, (split_char_whole _ _ Htail). by exists "", [].
  - rewrite IH. destruct (Ascii.eqb c sep).
    + by exists "", (piece :: pieces).
    + by exists (String c piece), pieces.
Qed.

Lemma replace_underscore (p : ascii → bool) (s : string) :
  p " "%char = true → Token.all_chars p s = true →
  Token.all_chars (λ c, p c && negb (Ascii.eqb c "_")) (Py.replace "_" " " s) = true.
Proof.
  intros Hsp. unfold Py.replace. induction s as [|c s IH]; simpl; [done|].
  intros [Hc Hs]%andb_prop.
  destruct (Ascii.eqb "_" c) eqn:Hu; simpl.
  - rewrite Hsp. simpl. by apply IH.
  - rewrite Hc, Ascii.eqb_sym, Hu. simpl. by apply IH.
Qed.

(** The name [_format_topic_categories] gives a Wikipedia address is what
    follows the last slash of the address, with a space for each
    underscore. *)
Theorem topic_name_is_last_segment (prefix tail : string) :
  lacks "/" tail = true →
  Py.contains "wikipedia.org/wiki/" (prefix +:+ "/" +:+ tail) = true →
  _format_topic_categories [prefix +:+ "/" +:+ tail] = [Py.replace "_" " " tail].
Proof.
  intros Htail Hwiki. unfold _format_topic_categories. cbn [map].
  rewrite Hwiki.
  destruct (split_char_last "/" prefix tail Htail) as (piece & pieces & Hsplit).
  change ("/" +:+ tail) with (String "/" tail).
  rewrite Hsplit.
  change (piece :: pieces ++ [tail]) with ((piece :: pieces) ++ [tail]).
  by rewrite last_snoc.
Qed.

Lemma topic_name_is_last_segment_witness :
  lacks "/" "Rock_music" = true ∧
  Py.contains "wikipedia.org/wiki/"
    ("https://en.wikipedia.org/wiki" +:+ "/" +:+ "Rock_music") = true ∧
  _format_topic_categories ["https://en.wikipedia.org/wiki" +:+ "/" +:+ "Rock_music"] =
    ["Rock music"].
Proof.
  split_and!; [reflexivity | reflexivity |].
  exact (topic_name_is_last_segment "https://en.wikipedia.org/wiki" "Rock_music"
           eq_refl eq_refl).
Defined.

(** [_format_topic_categories] gives one name for each address, in their
    order: a name without slash and without underscore for a Wikipedia
    address, and the address itself for any other. *)
Theorem topic_category_names (topic_categories : list string) :
  Forall2 (λ topic_url topic_name,
             if Py.contains "wikipedia.org/wiki/" topic_url
             then plain_name topic_name = true
             else topic_name = topic_url)
          topic_categories (_format_topic_categories topic_categories).
Proof.
  unfold _format_topic_categories.
  destruct topic_categories as [|url0 urls]; [constructor|].
  apply Forall2_fmap_r, Forall_Forall2_diag, Forall_forall. intros url _. unfold compose.
  destruct (Py.contains "wikipedia.org/wiki/" url); [|done].
  assert (Hlast : lacks "/" (default "" (last (Py.split_char "/" url))) = true).
  { destruct (last (Py.split_char "/" url)) as [piece|] eqn:Hl; [|done].
    apply last_Some_elem_of in Hl.
    by apply (proj1 (Forall_forall _ _) (split_char_pieces "/" url)) in Hl. }
  exact (replace_underscore _ _ eq_refl Hlast).
Qed.

End FilterManagerFilters.

Lemma filter_by_topic_drops_formatted_videos_witness :
  let p := sample_params [video] None 10 (Some "/m/04rlf") "any" in
  ∃ info,
    YouTubeDataFormatter.format_video_info (sample_hit "X1" "UC1") None = inr info ∧
    Py.str_truthy "/m/04rlf" = true ∧
    FilterManager.filter_by_topic [info] (Some "/m/04rlf") = inr [] ∧
    YouTubeSearchService.topic_filter_rejects info p = inr false.
Proof.
  intros p.
  destruct (format_video_info_returns (sample_hit "X1" "UC1") None eq_refl)
    as (info & Hf & _).
  assert (Hall : Forall formatted_video [info]).
  { constructor; [|constructor]. by exists (sample_hit "X1" "UC1"), None. }
  destruct (filter_by_topic_drops_formatted_videos [info] "/m/04rlf" p Hall eq_refl)
    as [Hstrict Hlenient].
  exists info. split_and!; [exact Hf | reflexivity | exact Hstrict |].
  by inversion Hlenient.
Defined.


(** ** Setting up the client *)

Section ClientSetup.
Context {W : Type}.
Implicit Types (env : @YouTubeAPIClient.Env W) (self : YouTubeAPIClient.t W) (st : St W).
Import YouTubeAPIClient.
Local Arguments String.append !_ _ / : simpl nomatch.


(** [set_api_key] never makes a ready client unready: when the new key
    is rejected, the client keeps the service built for the old key, while
    its key is already the new one. *)
Theorem set_api_key_keeps_old_service env self (key : string) :
  is_ready self = true →
  Py.str_truthy key = true →
  (set_api_key env self (Some key)).1 = false →
  is_ready (set_api_key env self (Some key)).2 = true ∧
  youtube (set_api_key env self (Some key)).2 = youtube self ∧
  api_key (set_api_key env self (Some key)).2 = Some key.
Proof.
  unfold set_api_key, _initialize_service, is_ready. intros Hready Hkey.
  cbn [api_key youtube Py.opt_truthy]. rewrite Hkey. cbn [negb default].
  cbn [api_key youtube Py.opt_truthy]. rewrite Hkey.
  simpl. destruct (build env key) as [e|service]; simpl; [|done].
  intros _. by rewrite Hready.
Qed.


(** A client that is not ready sends nothing: each of its four methods
    raises the same exception and leaves the state as it was. *)
Theorem client_not_ready_sends_nothing self (p : SearchParams)
    (ids : list string) st :
  is_ready self = false →
  let not_initialized := Exception "YouTube API client not initialized" in
  search_content self p st = (inl not_initialized, st) ∧
  get_video_details self ids st = (inl not_initialized, st) ∧
  get_channel_details self ids st = (inl not_initialized, st) ∧
  get_playlist_details self ids st = (inl not_initialized, st).
Proof.
  intros Hready.
  unfold search_content, get_video_details, get_channel_details, get_playlist_details.
  by rewrite Hready.
Qed.

Lemma startswith_app (prefix s : string) : Py.startswith prefix (prefix +:+ s) = true.
Proof. induction prefix as [|c prefix IH]; simpl; [done|]. by rewrite Ascii.eqb_refl. Qed.

Lemma wrapped_failure (kind : string) (e : exn) :
  wrapped kind (match e with
                | HttpError _ => Exception ("YouTube API error: " +:+ Py.exn_str e)
                | _ => Exception (kind +:+ " error: " +:+ Py.exn_str e)
                end).
Proof.
  destruct e; eexists; (split; [reflexivity|]); right.
  - right. rewrite <-str_app_assoc. apply startswith_app.
  - left. apply startswith_app.
  - right. rewrite <-str_app_assoc. apply startswith_app.
  - right. rewrite <-str_app_assoc. apply startswith_app.
Qed.

(** Whatever the remote service does, a client method lets out nothing
    but a plain [Exception] with one of its own messages, and it sends at
    most one request. *)
Theorem client_errors_are_wrapped self (p : SearchParams) (ids : list string) st :
  ((∀ e, (search_content self p st).1 = inl e → wrapped "Search" e) ∧
   at_most_one_request st (search_content self p st).2) ∧
  ((∀ e, (get_video_details self ids st).1 = inl e → wrapped "Video details" e) ∧
   at_most_one_request st (get_video_details self ids st).2) ∧
  ((∀ e, (get_channel_details self ids st).1 = inl e → wrapped "Channel details" e) ∧
   at_most_one_request st (get_channel_details self ids st).2) ∧
  ((∀ e, (get_playlist_details self ids st).1 = inl e → wrapped "Playlist details" e) ∧
   at_most_one_request st (get_playlist_details self ids st).2).
Proof.
  unfold search_content, get_video_details, get_channel_details, get_playlist_details,
    is_ready, the_service, at_most_one_request.
  destruct (youtube self) as [yt|]; cbv [Py.present negb try_except bind ret raise execute].
  - split_and!.
    + intros e. destruct (search_list yt _ (world st)) as [[e'|raw] w]; simpl; [|done].
      pose proof (wrapped_failure "Search" e') as Hw.
      destruct e'; simpl; intros [= <-]; exact Hw.
    + right. destruct (search_list yt _ (world st)) as [[[]|raw] w]; simpl; by eauto.
    + intros e. destruct (videos_list yt _ _ (world st)) as [[e'|raw] w]; simpl; [|done].
      pose proof (wrapped_failure "Video details" e') as Hw.
      destruct e'; simpl; intros [= <-]; exact Hw.
    + right. destruct (videos_list yt _ _ (world st)) as [[[]|raw] w]; simpl; by eauto.
    + intros e. destruct (channels_list yt _ _ (world st)) as [[e'|raw] w]; simpl; [|done].
      pose proof (wrapped_failure "Channel details" e') as Hw.
      destruct e'; simpl; intros [= <-]; exact Hw.
    + right. destruct (channels_list yt _ _ (world st)) as [[[]|raw] w]; simpl; by eauto.
    + intros e. destruct (playlists_list yt _ _ (world st)) as [[e'|raw] w]; simpl; [|done].
      pose proof (wrapped_failure "Playlist details" e') as Hw.
      destruct e'; simpl; intros [= <-]; exact Hw.
    + right. destruct (playlists_list yt _ _ (world st)) as [[[]|raw] w]; simpl; by eauto.
  - simpl. split_and!;
      try (intros e [= <-]; eexists; split; [reflexivity|]; by left); by left.
Qed.

End ClientSetup.

Lemma set_api_key_keeps_old_service_witness :
  let env := sample_env None None ["old key"] in
  let self := YouTubeAPIClient.__init__ env (Some "old key") in
  YouTubeAPIClient.is_ready self = true ∧
  Py.str_truthy "new key" = true ∧
  (YouTubeAPIClient.set_api_key env self (Some "new key")).1 = false ∧
  YouTubeAPIClient.is_ready (YouTubeAPIClient.set_api_key env self (Some "new key")).2
    = true ∧
  YouTubeAPIClient.api_key (YouTubeAPIClient.set_api_key env self (Some "new key")).2
    = Some "new key".
Proof.
  intros env self.
  pose proof (set_api_key_keeps_old_service env self "new key" eq_refl eq_refl eq_refl)
    as (Hready & _ & Hkey).
  split_and!; [reflexivity | reflexivity | reflexivity | exact Hready | exact Hkey].
Defined.


Lemma client_not_ready_sends_nothing_witness :
  let self := YouTubeAPIClient.__init__ (sample_env None (Some "YOUR_API_KEY_HERE") [])
                None in
  YouTubeAPIClient.is_ready self = false ∧
  YouTubeAPIClient.get_video_details self ["v1"; "v2"] fresh =
    (inl (Exception "YouTube API client not initialized"), fresh).
Proof.
  intros self. split; [reflexivity|].
  exact (proj1 (proj2 (client_not_ready_sends_nothing self
                         (sample_params [video] None 10 None "any") ["v1"; "v2"] fresh
                         eq_refl))).
Defined.

(** ** More on the search service *)

Section ServiceFacts.
Context {W : Type}.
Implicit Types (self : YouTubeSearchService.t W) (st : St W).
Import YouTubeAPIClient YouTubeSearchService.

Lemma details_lookup_from (video_details_list : list DetailRecord)
    (acc : gmap string DetailRecord) (P : string → DetailRecord → Prop) :
  (∀ k d, acc !! k = Some d → P k d) →
  (∀ k d, d ∈ video_details_list → d_id d = Some k → Py.str_truthy k = true → P k d) →
  ∀ k d,
    fold_left (λ video_details_dict details,
                 match d_id details with
                 | Some video_id =>
                     if Py.str_truthy video_id
                     then <[video_id := details]> video_details_dict
                     else video_details_dict
                 | None => video_details_dict
                 end) video_details_list acc !! k = Some d →
    P k d.
Proof.
  revert acc. induction video_details_list as [|details l IH]; intros acc Hacc Hl k d; simpl.
  - apply Hacc.
  - apply IH.
    + destruct (d_id details) as [vid|] eqn:Hid; [|done].
      destruct (Py.str_truthy vid) eqn:Ht; [|done].
      intros k' d'. rewrite lookup_insert. case_decide as Hk.
      * intros [= <-]. subst k'. apply Hl; [by left | done | done].
      * apply Hacc.
    + intros k' d' Hin. apply Hl. by right.
Qed.


Lemma fetch_video_details_by_id self (yt : Service W) (raw_results : list RawHit) st :
  youtube (api_client self) = Some yt →
  ∃ dict w,
    fetch_video_details self (collect_video_ids raw_results) st =
      (inr dict, {| world := w; calls := calls st ++ batched_lookup raw_results |}) ∧
    ∀ k d, dict !! k = Some d → d_id d = Some k.
Proof.
  intros Hyt. unfold fetch_video_details, batched_lookup.
  destruct (collect_video_ids raw_results) as [|video_id ids].
  - exists ∅, (world st). rewrite st_eta. split; [done|].
    intros k d. by rewrite lookup_empty.
  - unfold try_except, bind.
    destruct (get_video_details_run (api_client self) yt (video_id :: ids) st Hyt)
      as (r & w & ->).
    destruct r as [e|video_details_list]; cbv [ret].
    + eexists _, _. split; [done|]. intros k d. by rewrite lookup_empty.
    + eexists _, _. split; [done|]. unfold details_lookup.
      apply (details_lookup_from video_details_list ∅ (λ k d, d_id d = Some k)).
      * intros k d. by rewrite lookup_empty.
      * by intros k d _ Hid _.
Qed.

Lemma process_video_items_of_hits (dict : gmap string DetailRecord) (p : SearchParams)
    (raw_results : list RawHit) (acc : list Info) st :
  (∀ k d, dict !! k = Some d → d_id d = Some k) →
  ∃ infos,
    for_acc raw_results (process_video_item dict p) acc st = (inr (acc ++ infos), st) ∧
    (length infos ≤ length raw_results)%nat ∧
    Forall (λ info, ∃ item, item ∈ raw_results ∧ video_of_hit p item info) infos.
Proof.
  intros Hdict. revert acc.
  induction raw_results as [|item raw IH]; intros acc; simpl.
  - exists []. by rewrite app_nil_r.
  - unfold bind at 1, process_video_item at 1.
    cbv [bind try_except lift ret raise].
    assert (Hnext : ∃ infos,
      for_acc raw (process_video_item dict p) acc st = (inr (acc ++ infos), st) ∧
      (length infos ≤ S (length raw))%nat ∧
      Forall (λ info, ∃ item0, item0 ∈ item :: raw ∧ video_of_hit p item0 info) infos).
    { destruct (IH acc) as (infos & Hrun & Hlen & Hall).
      exists infos. split_and!; [done | lia |].
      eapply Forall_impl; [exact Hall|]. intros info (item0 & Hin & Hv).
      exists item0. split; [by right | done]. }
    destruct (YouTubeDataFormatter.format_video_info item _) as [e|info] eqn:Hf;
      [exact Hnext|].
    destruct (_should_include_video info p) as [e|[]] eqn:Hinc; try exact Hnext.
    destruct (IH (acc ++ [info])) as (infos & Hrun & Hlen & Hall).
    exists (info :: infos). rewrite Hrun, <-app_assoc. split_and!; [done | simpl; lia |].
    constructor.
    + exists item. split; [by left|]. eexists. split_and!; [exact Hf | exact Hinc |].
      intros details.
      destruct (Py.opt_truthy (id_videoId (default no_id (hit_id item)))) eqn:Ht; [|done].
      intros Hd%Hdict. rewrite Hd.
      by destruct (id_videoId (default no_id (hit_id item))).
    + eapply Forall_impl; [exact Hall|]. intros info' (item0 & Hin & Hv).
      exists item0. split; [by right | done].
Qed.

(** Each video [_process_results] returns comes from one of the hits, was
    formatted with the detail record of that very video if with any, and
    passed the filters; no hit gives two videos. *)
Theorem videos_come_from_hits self (yt : Service W) (raw_results : list RawHit)
    (p : SearchParams) st :
  youtube (api_client self) = Some yt →
  ∃ infos st',
    _process_results self raw_results video p st = (inr infos, st') ∧
    (length infos ≤ length raw_results)%nat ∧
    Forall (λ info, ∃ item, item ∈ raw_results ∧ video_of_hit p item info) infos.
Proof.
  intros Hyt. unfold _process_results, bind.
  destruct (fetch_video_details_by_id self yt raw_results st Hyt)
    as (dict & w & -> & Hdict).
  destruct (process_video_items_of_hits dict p raw_results []
              {| world := w; calls := calls st ++ batched_lookup raw_results |} Hdict)
    as (infos & -> & Hlen & Hall).
  by exists infos, {| world := w; calls := calls st ++ batched_lookup raw_results |}.
Qed.

Lemma process_video_items_categorised (dict : gmap string DetailRecord)
    (p : SearchParams) (raw_results : list RawHit) (acc : list Info) st :
  Forall (λ item, Py.str_truthy (snippet_category item) = true) raw_results →
  for_acc raw_results (process_video_item dict p) acc st = (inr acc, st).
Proof.
  induction 1 as [|item raw Hcat _ IH]; simpl; [done|].
  unfold bind at 1, process_video_item at 1.
  cbv [bind try_except lift ret raise].
  by rewrite (format_video_info_raises item _ Hcat).
Qed.

(** Video hits whose search snippet carries a category are all dropped:
    the detail request is sent for them, and no video is returned. *)
Theorem videos_with_snippet_category_dropped self (yt : Service W)
    (raw_results : list RawHit) (p : SearchParams) st :
  youtube (api_client self) = Some yt →
  Forall (λ item, Py.str_truthy (snippet_category item) = true) raw_results →
  ∃ w, _process_results self raw_results video p st =
         (inr [], {| world := w; calls := calls st ++ batched_lookup raw_results |}).
Proof.
  intros Hyt Hcat. unfold _process_results, bind.
  destruct (fetch_video_details_run self yt raw_results st Hyt) as (dict & w & ->).
  rewrite (process_video_items_categorised dict p raw_results [] _ Hcat).
  by exists w.
Qed.

Lemma process_channel_items_trace self (yt : Service W) (raw_results : list RawHit)
    (acc : list Info) st :
  youtube (api_client self) = Some yt →
  ∃ infos w,
    for_acc raw_results (process_channel_item self) acc st =
      (inr (acc ++ infos),
       {| world := w; calls := calls st ++ detail_lookups channel raw_results |}) ∧
    (length infos ≤ length raw_results)%nat ∧
    (detail_lookups_succeed yt → length infos = length raw_results).
Proof.
  intros Hyt. revert acc st.
  induction raw_results as [|item raw IH]; intros acc st; simpl.
  - exists [], (world st). rewrite !app_nil_r. by destruct st.
  - unfold bind at 1, process_channel_item at 1.
    unfold get_channel_details, YouTubeAPIClient.is_ready, the_service.
    rewrite Hyt. cbv [Py.present negb try_except bind ret raise execute].
    destruct (Py.opt_truthy (id_channelId (default no_id (hit_id item)))).
    + cbn [Py.join].
      destruct (channels_list yt "snippet,statistics,brandingSettings"
                  (default "" (id_channelId (default no_id (hit_id item)))) (world st))
        as [[e|channel_details] w] eqn:Hcall.
      * assert (Hdrop :
          ∃ infos w0,
            for_acc raw (process_channel_item self) acc
              {| world := w;
                 calls := calls st ++
                   [ChannelsList "snippet,statistics,brandingSettings"
                      (default "" (id_channelId (default no_id (hit_id item))))] |} =
            (inr (acc ++ infos),
             {| world := w0;
                calls := calls st ++
                  (ChannelsList "snippet,statistics,brandingSettings"
                     (default "" (id_channelId (default no_id (hit_id item))))
                   :: detail_lookups channel raw) |}) ∧
            (length infos ≤ S (length raw))%nat ∧
            (detail_lookups_succeed yt → length infos = S (length raw))).
        { edestruct IH as (infos & w0 & Hrun & Hlen & _).
          exists infos, w0. rewrite Hrun. simpl. rewrite <-app_assoc.
          split_and!; [done | lia |].
          intros Hok. destruct (Hok "snippet,statistics,brandingSettings"
            (default "" (id_channelId (default no_id (hit_id item)))) (world st))
            as [[r Hr] _]. rewrite Hcall in Hr. done. }
        destruct e; exact Hdrop.
      * edestruct IH as (infos & w0 & Hrun & Hlen & Hfull).
        eexists (_ :: infos), w0. rewrite Hrun. simpl. rewrite <-!app_assoc.
        split_and!; [done | lia |]. intros Hok. by rewrite (Hfull Hok).
    + edestruct IH as (infos & w0 & Hrun & Hlen & Hfull).
      eexists (_ :: infos), w0. rewrite Hrun. simpl. rewrite <-!app_assoc.
      split_and!; [done | lia |]. intros Hok. by rewrite (Hfull Hok).
Qed.

Lemma process_playlist_items_trace self (yt : Service W) (raw_results : list RawHit)
    (acc : list Info) st :
  youtube (api_client self) = Some yt →
  ∃ infos w,
    for_acc raw_results (process_playlist_item self) acc st =
      (inr (acc ++ infos),
       {| world := w; calls := calls st ++ detail_lookups playlist raw_results |}) ∧
    (length infos ≤ length raw_results)%nat ∧
    (detail_lookups_succeed yt → length infos = length raw_results).
Proof.
  intros Hyt. revert acc st.
  induction raw_results as [|item raw IH]; intros acc st; simpl.
  - exists [], (world st). rewrite !app_nil_r. by destruct st.
  - unfold bind at 1, process_playlist_item at 1.
    unfold get_playlist_details, YouTubeAPIClient.is_ready, the_service.
    rewrite Hyt. cbv [Py.present negb try_except bind ret raise execute].
    destruct (Py.opt_truthy (id_playlistId (default no_id (hit_id item)))).
    + cbn [Py.join].
      destruct (playlists_list yt "snippet,contentDetails,status"
                  (default "" (id_playlistId (default no_id (hit_id item)))) (world st))
        as [[e|playlist_details] w] eqn:Hcall.
      * assert (Hdrop :
          ∃ infos w0,
            for_acc raw (process_playlist_item self) acc
              {| world := w;
                 calls := calls st ++
                   [PlaylistsList "snippet,contentDetails,status"
                      (default "" (id_playlistId (default no_id (hit_id item))))] |} =
            (inr (acc ++ infos),
             {| world := w0;
                calls := calls st ++
                  (PlaylistsList "snippet,contentDetails,status"
                     (default "" (id_playlistId (default no_id (hit_id item))))
                   :: detail_lookups playlist raw) |}) ∧
            (length infos ≤ S (length raw))%nat ∧
            (detail_lookups_succeed yt → length infos = S (length raw))).
        { edestruct IH as (infos & w0 & Hrun & Hlen & _).
          exists infos, w0. rewrite Hrun. simpl. rewrite <-app_assoc.
          split_and!; [done | lia |].
          intros Hok. destruct (Hok "snippet,contentDetails,status"
            (default "" (id_playlistId (default no_id (hit_id item)))) (world st))
            as [_ [r Hr]]. rewrite Hcall in Hr. done. }
        destruct e; exact Hdrop.
      * edestruct IH as (infos & w0 & Hrun & Hlen & Hfull).
        eexists (_ :: infos), w0. rewrite Hrun. simpl. rewrite <-!app_assoc.
        split_and!; [done | lia |]. intros Hok. by rewrite (Hfull Hok).
    + edestruct IH as (infos & w0 & Hrun & Hlen & Hfull).
      eexists (_ :: infos), w0. rewrite Hrun. simpl. rewrite <-!app_assoc.
      split_and!; [done | lia |]. intros Hok. by rewrite (Hfull Hok).
Qed.

(** Channels and playlists are looked up one by one: [_process_results]
    sends one detail request, for a single id, for each hit that has an id,
    in the order of the hits, and nothing else.  It returns at most one
    result for each hit, and one for each when no detail request fails. *)
Theorem channels_and_playlists_looked_up_one_by_one self (yt : Service W)
    (raw_results : list RawHit) (ct : ContentType) (p : SearchParams) st :
  youtube (api_client self) = Some yt →
  ct ≠ video →
  ∃ infos w,
    _process_results self raw_results ct p st =
      (inr infos, {| world := w; calls := calls st ++ detail_lookups ct raw_results |}) ∧
    (length infos ≤ length raw_results)%nat ∧
    (detail_lookups_succeed yt → length infos = length raw_results).
Proof.
  intros Hyt Hct. destruct ct; [done| |]; unfold _process_results.
  - exact (process_channel_items_trace self yt raw_results [] st Hyt).
  - exact (process_playlist_items_trace self yt raw_results [] st Hyt).
Qed.

Lemma search_content_type_others self (yt : Service W) (p : SearchParams)
    (ct : ContentType) (results : ResultSet) st :
  youtube (api_client self) = Some yt →
  ∃ results' st',
    search_content_type self p ct results st = (inr results', st') ∧
    ∀ ct0, ct0 ≠ ct → results_of ct0 results' = results_of ct0 results.
Proof.
  intros Hyt.
  assert (Hsingle : ∃ results' st',
    try_except
      (raw_results <- search_content (api_client self) (with_content_type p ct) ;;
       formatted_results <- _process_results self raw_results ct p ;;
       ret (store results ct formatted_results))
      (λ e, ret results) st = (inr results', st') ∧
    ∀ ct0, ct0 ≠ ct → results_of ct0 results' = results_of ct0 results).
  { unfold try_except. unfold bind at 1.
    rewrite (search_content_run _ yt _ _ Hyt).
    destruct (search_list yt (search_args (with_content_type p ct)) (world st)).1
      as [e|raw_results] eqn:Hr.
    - cbv [ret]. by eexists _, _.
    - unfold bind.
      destruct (process_results_run self yt raw_results ct p
                  {| world := (search_list yt (search_args (with_content_type p ct))
                                           (world st)).2;
                     calls := calls st ++
                       [SearchList (search_args (with_content_type p ct))] |} Hyt)
        as (infos & st' & -> & _).
      cbv [ret]. eexists _, _. split; [done|].
      intros ct0 Hne. rewrite results_of_store. by case_decide. }
  unfold search_content_type.
  destruct (sp_category_id p) as [[s|[|c cats]]|]; try exact Hsingle.
  unfold bind.
  destruct (search_categories_run self yt p ct (c :: cats) [] st Hyt)
    as (all & st' & -> & _).
  cbv [ret]. eexists _, _. split; [done|].
  intros ct0 Hne. rewrite results_of_store. by case_decide.
Qed.

Lemma search_content_types_others self (yt : Service W) (p : SearchParams)
    (cts : list ContentType) (results : ResultSet) st :
  youtube (api_client self) = Some yt →
  ∃ results' st',
    for_acc cts (search_content_type self p) results st = (inr results', st') ∧
    ∀ ct0, ct0 ∉ cts → results_of ct0 results' = results_of ct0 results.
Proof.
  intros Hyt. revert results st.
  induction cts as [|ct cts IH]; intros results st; simpl.
  - by eexists _, _.
  - unfold bind at 1.
    destruct (search_content_type_others self yt p ct results st Hyt)
      as (r1 & st1 & -> & H1).
    destruct (IH r1 st1) as (r2 & st2 & -> & H2).
    eexists _, _. split; [done|].
    intros ct0 Hnot. rewrite H2, H1; [done | |]; set_solver.
Qed.

(** [search] fills in the lists of the content types it is asked for, and
    leaves the others empty. *)
Theorem search_leaves_other_kinds_empty self (yt : Service W) (p : SearchParams)
    (ct : ContentType) st :
  youtube (api_client self) = Some yt →
  ct ∉ default [video] (sp_content_types p) →
  ∃ results st',
    search self p st = (inr results, st') ∧ results_of ct results = [].
Proof.
  intros Hyt Hct. unfold search, YouTubeSearchService.is_ready, YouTubeAPIClient.is_ready.
  rewrite Hyt. cbn [Py.present negb].
  destruct (search_content_types_others self yt p
              (default [video] (sp_content_types p)) no_results st Hyt)
    as (results & st' & Hrun & Hothers).
  exists results, st'. split; [exact Hrun|].
  rewrite (Hothers ct Hct). by destruct ct.
Qed.

Lemma initialize_service_true (env : @YouTubeAPIClient.Env W)
    (client client' : YouTubeAPIClient.t W) :
  _initialize_service env client = (true, client') →
  ∃ service, youtube client' = Some service.
Proof.
  unfold _initialize_service.
  destruct (Py.opt_truthy (api_key (if negb (Py.opt_truthy (api_key client)) then _ else _)));
    [|done].
  destruct (build env _) as [e|service]; [done|].
  intros [= <-]. by exists service.
Qed.

(** Once [set_api_key] has returned true, [search] does not raise: it
    returns, having sent the [search.list] requests of its fan-out. *)
Theorem search_after_set_api_key (env : @YouTubeAPIClient.Env W) self self'
    (api_key : option string) (p : SearchParams) st :
  YouTubeSearchService.set_api_key env self api_key = (true, self') →
  ∃ results st',
    search self' p st = (inr results, st') ∧
    search_calls (calls st') =
      search_calls (calls st) ++
      flat_map (fan_out p) (default [video] (sp_content_types p)).
Proof.
  unfold YouTubeSearchService.set_api_key, YouTubeAPIClient.set_api_key.
  destruct (_initialize_service env _) as [ok client] eqn:Hinit.
  intros [= -> <-].
  destruct (initialize_service_true _ _ _ Hinit) as [service Hyt].
  destruct (search_run {| api_client := client |} service p st Hyt)
    as (results & st' & Hrun & Hs & _).
  by exists results, st'.
Qed.

(** A service made without a key, when neither the environment nor the
    configuration has one, raises on every search and sends nothing. *)
Theorem search_without_any_key (env : @YouTubeAPIClient.Env W)
    (api_key : option string) (p : SearchParams) st :
  Py.opt_truthy api_key = false →
  _get_api_key env = None →
  search (YouTubeSearchService.__init__ env api_key) p st =
    (inl (Exception "YouTube API not initialized"), st).
Proof.
  intros Hkey Hnone.
  unfold search, YouTubeSearchService.is_ready, YouTubeAPIClient.is_ready,
    YouTubeSearchService.__init__, YouTubeAPIClient.__init__, _initialize_service.
  cbn [YouTubeAPIClient.api_key youtube api_client].
  rewrite Hkey. cbn [negb YouTubeAPIClient.api_key youtube]. by rewrite Hnone.
Qed.

(** For the kids filter, a missing value and any value other than 'any'
    and 'yes' count as 'no'. *)
Theorem kids_filter_other_values_count_as_no (info : Info) (p p' : SearchParams) :
  sp_kids_filter p ≠ Some "any" →
  sp_kids_filter p ≠ Some "yes" →
  sp_kids_filter p' = Some "no" →
  kids_filter_rejects info p = kids_filter_rejects info p'.
Proof.
  intros Hany Hyes Hno. unfold kids_filter_rejects, opt_eqb. rewrite Hno.
  destruct (sp_kids_filter p) as [k|]; [|done].
  destruct (String.eqb_spec k "any") as [->|_]; [done|].
  by destruct (String.eqb_spec k "yes") as [->|_].
Qed.

End ServiceFacts.


Lemma videos_come_from_hits_witness :
  let yt := service_by_category [] in
  let p := sample_params [video] None 10 None "any" in
  YouTubeAPIClient.youtube (YouTubeSearchService.api_client (ready_service yt)) = Some yt ∧
  ∃ infos st',
    YouTubeSearchService._process_results (ready_service yt)
      [sample_hit "V1" "UC1"; sample_hit "V2" "UC1"] video p fresh = (inr infos, st') ∧
    (length infos ≤ 2)%nat.
Proof.
  intros yt p. split; [reflexivity|].
  destruct (videos_come_from_hits (ready_service yt) yt
              [sample_hit "V1" "UC1"; sample_hit "V2" "UC1"] p fresh eq_refl)
    as (infos & st' & Hrun & Hlen & _).
  exists infos, st'. split; [exact Hrun | exact Hlen].
Defined.

Lemma videos_with_snippet_category_dropped_witness :
  let yt := service_by_category [] in
  let p := sample_params [video] None 10 None "any" in
  let raw_results := [categorised_hit "V1" "10"; categorised_hit "V2" "22"] in
  YouTubeAPIClient.youtube (YouTubeSearchService.api_client (ready_service yt)) = Some yt ∧
  Forall (λ item, Py.str_truthy (snippet_category item) = true) raw_results ∧
  ∃ w, YouTubeSearchService._process_results (ready_service yt) raw_results video p fresh =
         (inr [],
          {| world := w;
             calls := [VideosList "snippet,contentDetails,statistics,status,topicDetails"
                                  "V1,V2"] |}).
Proof.
  intros yt p raw_results.
  assert (Hcat : Forall (λ item, Py.str_truthy (snippet_category item) = true) raw_results).
  { repeat constructor. }
  split_and!; [reflexivity | exact Hcat |].
  exact (videos_with_snippet_category_dropped (ready_service yt) yt raw_results p fresh
           eq_refl Hcat).
Defined.

Lemma channels_and_playlists_looked_up_one_by_one_witness :
  let yt := service_by_category [] in
  let p := sample_params [channel] None 10 None "any" in
  let raw_results := [channel_hit "UC1"; channel_hit ""; channel_hit "UC2"] in
  YouTubeAPIClient.youtube (YouTubeSearchService.api_client (ready_service yt)) = Some yt ∧
  channel ≠ video ∧
  ∃ infos w,
    YouTubeSearchService._process_results (ready_service yt) raw_results channel p fresh =
      (inr infos,
       {| world := w;
          calls := [ChannelsList "snippet,statistics,brandingSettings" "UC1";
                    ChannelsList "snippet,statistics,brandingSettings" "UC2"] |}).
Proof.
  intros yt p raw_results.
  assert (Hct : channel ≠ video) by discriminate.
  split_and!; [reflexivity | exact Hct |].
  destruct (channels_and_playlists_looked_up_one_by_one (ready_service yt) yt
              raw_results channel p fresh eq_refl Hct) as (infos & w & Hrun & _).
  exists infos, w. exact Hrun.
Defined.

Lemma search_leaves_other_kinds_empty_witness :
  let yt := service_by_category [] in
  let p := sample_params [video; playlist] None 10 None "any" in
  YouTubeAPIClient.youtube (YouTubeSearchService.api_client (ready_service yt)) = Some yt ∧
  (channel ∉ default [video] (sp_content_types p)) ∧
  ∃ results st',
    YouTubeSearchService.search (ready_service yt) p fresh = (inr results, st') ∧
    channels results = [].
Proof.
  intros yt p.
  assert (Hct : channel ∉ default [video] (sp_content_types p)).
  { apply (bool_decide_unpack _). vm_compute. exact I. }
  split_and!; [reflexivity | exact Hct |].
  exact (search_leaves_other_kinds_empty (ready_service yt) yt p channel fresh
           eq_refl Hct).
Defined.

Lemma search_after_set_api_key_witness :
  let env := sample_env (Some "key of the environment") None ["key of the environment"] in
  let p := sample_params [video; channel] None 10 None "any" in
  ∃ self',
    YouTubeSearchService.set_api_key env unready_service None = (true, self') ∧
    ∃ results st',
      YouTubeSearchService.search self' p fresh = (inr results, st') ∧
      search_calls (calls st') =
        [YouTubeAPIClient.search_args (with_content_type p video);
         YouTubeAPIClient.search_args (with_content_type p channel)].
Proof.
  intros env p. eexists. split; [reflexivity|].
  exact (search_after_set_api_key env unready_service _ None p fresh eq_refl).
Defined.

Lemma search_without_any_key_witness :
  let env := sample_env (Some "") (Some "YOUR_API_KEY_HERE") ["YOUR_API_KEY_HERE"] in
  let p := sample_params [video] None 10 None "any" in
  Py.opt_truthy (Some "") = false ∧
  YouTubeAPIClient._get_api_key env = None ∧
  YouTubeSearchService.search (YouTubeSearchService.__init__ env (Some "")) p fresh =
    (inl (Exception "YouTube API not initialized"), fresh).
Proof.
  intros env p. split_and!; [reflexivity | reflexivity |].
  exact (search_without_any_key env (Some "") p fresh eq_refl eq_refl).
Defined.

Lemma kids_filter_other_values_count_as_no_witness :
  let info : Info := {[ "made_for_kids" := PBool true ]} in
  let p := sample_params [video] None 10 None "only" in
  let p' := sample_params [video] None 10 None "no" in
  sp_kids_filter p ≠ Some "any" ∧ sp_kids_filter p ≠ Some "yes" ∧
  sp_kids_filter p' = Some "no" ∧
  YouTubeSearchService.kids_filter_rejects info p =
  YouTubeSearchService.kids_filter_rejects info p'.
Proof.
  intros info p p'.
  assert (Hany : sp_kids_filter p ≠ Some "any") by discriminate.
  assert (Hyes : sp_kids_filter p ≠ Some "yes") by discriminate.
  split_and!; [exact Hany | exact Hyes | reflexivity |].
  exact (kids_filter_other_values_count_as_no info p p' Hany Hyes eq_refl).
Defined.
